(** * ZINova operator dashboard (app.py): selection state machine,
      history summarizer and assistant gateway

    The dashboard is a Streamlit script: every user interaction runs the
    script from top to bottom against the session state, and [st.rerun()]
    stops the current run.  One run of the script is embedded here as a
    function of the session state and of the values the widgets return in
    that run; the calls that only draw (map, overlays, tables, captions)
    read the state and are left out.  The external chat-completion
    service is a function from the request to its reply or failure.
    Python floats are IEEE binary64 numbers ([PrimFloat]); the power
    operator [**] hands its ordinary cases to the C library's [pow], whose
    rounding is not fixed by any standard and which is therefore a
    parameter of the click handler.  Dicts keyed by zone or spill id are
    [gmap]s, strings are byte strings (UTF-8). *)

From Stdlib Require Import ZArith Floats Ascii String List Bool Lia.
From Stdlib Require Import DecimalString.
From stdpp Require Import gmap strings.

Set Warnings "-inexact-float".

(** ** Python primitives used by the script *)

Module Py.

(** Exceptions the script can raise.  [st.rerun()] stops the run by
    raising Streamlit's [RerunException]. *)
Inductive exn : Type :=
| RerunException
| ValueError
| IndexError
| StopIteration
| AttributeError
| OverflowError
| TypeError.

(** Outcome of evaluating a Python expression: a value or a raised
    exception. *)
Inductive result (A : Type) : Type :=
| Ok (a : A)
| Raise (e : exn).
Arguments Ok {A} a.
Arguments Raise {A} e.

(** *** [float ** float] *)

(** What [x ** y] evaluates to for two floats: a float, or a complex
    number (a negative base under a fractional exponent), whose value the
    script never gets to use. *)
Inductive num : Type :=
| PyFloat (x : float)
| PyComplex.

(** The C library's [pow]: the double it returns and whether it reported
    a range error ([errno == ERANGE]). *)
Definition LibmPow : Type := float -> float -> float * bool.

(** The ordinary case of CPython's [float_pow]: the base is finite,
    positive and not 1, the exponent finite and not 0.  After the call,
    [_Py_ADJUST_ERANGE1] drops a range error whose result is zero (an
    underflow) and adds one for an infinite result; a range error is
    raised as [OverflowError]. *)
Definition libm_pow (pow : LibmPow) (iv iw : float) : result float :=
  let '(ix, erange) := pow iv iw in
  let range_error := if erange then negb (ix =? 0)%float else is_infinity ix in
  if range_error then Raise OverflowError else Ok ix.

(** [x ** 2].  [float_pow] settles the special cases itself, in this
    order: a NaN base is returned, an infinite base gives [fabs(x)], a
    zero base gives 0.0, a negative base under an integral exponent is
    replaced by its absolute value (the result is not negated, 2 being
    even), base 1 gives 1.0. *)
Definition pow_2 (pow : LibmPow) (x : float) : result float :=
  if is_nan x then Ok x
  else if is_infinity x then Ok (abs x)
  else if (x =? 0)%float then Ok 0%float
  else
    let iv := if (x <? 0)%float then (- x)%float else x in
    if (iv =? 1)%float then Ok 1%float
    else libm_pow pow iv 2.

(** [x ** 0.5].  The same special cases; a negative finite base under
    this fractional exponent is handed to the complex power, whose result
    is a complex number. *)
Definition pow_half (pow : LibmPow) (x : float) : result num :=
  if is_nan x then Ok (PyFloat x)
  else if is_infinity x then Ok (PyFloat (abs x))
  else if (x =? 0)%float then Ok (PyFloat 0)
  else if (x <? 0)%float then Ok PyComplex
  else if (x =? 1)%float then Ok (PyFloat 1)
  else
    match libm_pow pow x 0.5 with
    | Ok ix => Ok (PyFloat ix)
    | Raise e => Raise e
    end.

(** Truth value of [None] / [str]: only [None] and the empty string are
    falsy. *)
Definition truthy (o : option string) : bool :=
  match o with
  | None => false
  | Some s => negb (String.eqb s "")
  end.

(** [x in l] for an optional string against a list of strings. *)
Definition contains (l : list string) (x : option string) : bool :=
  match x with
  | None => false
  | Some s => existsb (String.eqb s) l
  end.

(** [l.index(x)]: position of the first element equal to [x];
    [ValueError] when there is none. *)
Fixpoint index (l : list string) (x : string) : option nat :=
  match l with
  | [] => None
  | y :: l' => if String.eqb y x then Some 0 else option_map S (index l' x)
  end.

(** [s.split(sep)[0]]: the part of [s] before the first occurrence of
    the (non-empty) separator, all of [s] when there is none. *)
Fixpoint split_head (sep s : string) : string :=
  match s with
  | EmptyString => EmptyString
  | String c s' =>
      if String.prefix sep s then EmptyString else String c (split_head sep s')
  end.

(** Decimal digits of a natural number, [str(n)]. *)
Definition str_of_N (n : N) : string := NilZero.string_of_uint (N.to_uint n).
Definition str_of_Z (z : Z) : string := str_of_N (Z.to_N z).

(** The [k] lowest decimal digits of [n], padded with zeros. *)
Fixpoint low_digits (k : nat) (n : Z) : string :=
  match k with
  | 0 => ""
  | S k' => low_digits k' (n / 10) +:+ str_of_Z (n mod 10)
  end.

(** Nearest integer to [p / q] ([q > 0]), ties to even. *)
Definition round_half_even (p q : Z) : Z :=
  let fl := (p / q)%Z in
  let r := (p mod q)%Z in
  match (2 * r ?= q)%Z with
  | Lt => fl
  | Gt => (fl + 1)%Z
  | Eq => if Z.even fl then fl else (fl + 1)%Z
  end.

(** A finite positive double [m * 2^e] as a fraction. *)
Definition frac_of (m : positive) (e : Z) : Z * Z :=
  if (0 <=? e)%Z then (Z.pos m * 2 ^ e, 1)%Z else (Z.pos m, 2 ^ (- e))%Z.

Definition sign_str (s : bool) : string := if s then "-" else "".

(** [format(x, '.<prec>f')]: the exact binary value rounded to [prec]
    decimals, ties to even. *)
Definition format_f (prec : nat) (x : float) : string :=
  let body (n : Z) :=
    str_of_Z (n / 10 ^ Z.of_nat prec) +:+
    match prec with 0 => "" | _ => "." +:+ low_digits prec n end in
  match Prim2SF x with
  | S754_nan => "nan"
  | S754_infinity s => sign_str s +:+ "inf"
  | S754_zero s => sign_str s +:+ body 0%Z
  | S754_finite s m e =>
      let '(p, q) := frac_of m e in
      sign_str s +:+ body (round_half_even (p * 10 ^ Z.of_nat prec) q)
  end.

(** [format(x, '.0%')]: the double product [x * 100], no decimals. *)
Definition format_pct0 (x : float) : string :=
  format_f 0 (x * 100)%float +:+ "%".

(** *** [repr] of a float: shortest digits that read back as the same double *)

(** Least [k] (searched upwards from [k0]) with [p / q < 10^k]. *)
Fixpoint dec_exponent (fuel : nat) (k : Z) (p q : Z) : Z :=
  match fuel with
  | 0 => k
  | S fuel' =>
      let below :=
        if (0 <=? k)%Z then (p <? 10 ^ k * q)%Z else (p * 10 ^ (- k) <? q)%Z in
      if below then k else dec_exponent fuel' (k + 1)%Z p q
  end.

(** Does the decimal [d * 10^t] round (to nearest, ties to even) to the
    positive double [m * 2^e]?  The neighbours are one unit in the last
    place away, the lower one half a unit when [m] is a power of two above
    the subnormal range. *)
Definition reads_back (m : positive) (e : Z) (d t : Z) : bool :=
  let k := Z.max 0 (- t) in
  let j := (Z.max 0 (2 - e))%Z in
  (* everything scaled by 10^k * 2^j *)
  let dec := (d * 10 ^ (t + k) * 2 ^ j)%Z in
  let at_e (c : Z) (sh : Z) := (c * 2 ^ (e - sh + j) * 10 ^ k)%Z in
  let pow2 := (Z.pos m =? 2 ^ 52)%Z && (-1074 <? e)%Z in
  let lo := if pow2 then at_e (4 * Z.pos m - 1)%Z 2%Z
            else at_e (2 * Z.pos m - 1)%Z 1%Z in
  let hi := at_e (2 * Z.pos m + 1)%Z 1%Z in
  if Z.even (Z.pos m) then (lo <=? dec)%Z && (dec <=? hi)%Z
  else (lo <? dec)%Z && (dec <? hi)%Z.

(** Shortest digit string: for [n = 1, 2, ...] digits try the [n]-digit
    decimal nearest to the value, then its other neighbour. *)
Fixpoint shortest (fuel : nat) (n : Z) (m : positive) (e : Z) (k : Z)
  : Z * Z :=
  let '(p, q) := frac_of m e in
  let t := (k - n)%Z in
  let '(sp, sq) := if (0 <=? t)%Z then (p, q * 10 ^ t)%Z
                   else (p * 10 ^ (- t), q)%Z in
  let near := round_half_even sp sq in
  let fl := (sp / sq)%Z in
  let other := if (near =? fl)%Z then (fl + 1)%Z else fl in
  match fuel with
  | 0 => (near, t)
  | S fuel' =>
      if reads_back m e near t then (near, t)
      else if reads_back m e other t then (other, t)
      else shortest fuel' (n + 1)%Z m e k
  end.

(** Drop trailing zeros of the digit string (at least one digit stays). *)
Fixpoint strip_zeros (fuel : nat) (d t : Z) : Z * Z :=
  match fuel with
  | 0 => (d, t)
  | S fuel' =>
      if (d mod 10 =? 0)%Z && (0 <? d)%Z
      then strip_zeros fuel' (d / 10)%Z (t + 1)%Z else (d, t)
  end.

Definition zeros (n : Z) : string :=
  low_digits (Z.to_nat n) 0.

(** [repr(x)]: fixed notation when the decimal point position is within
    [-4 < decpt <= 16], exponent notation otherwise. *)
Definition repr (x : float) : string :=
  match Prim2SF x with
  | S754_nan => "nan"
  | S754_infinity s => sign_str s +:+ "inf"
  | S754_zero s => sign_str s +:+ "0.0"
  | S754_finite s m e =>
      let '(p, q) := frac_of m e in
      let k := dec_exponent 700 (-330) p q in
      let '(d0, t0) := shortest 17 1 m e k in
      let '(d, t) := strip_zeros 20 d0 t0 in
      let ds := str_of_Z d in
      let nd := Z.of_nat (String.length ds) in
      let decpt := (nd + t)%Z in
      sign_str s +:+
      if (-4 <? decpt)%Z && (decpt <=? 16)%Z then
        if (decpt <=? 0)%Z then "0." +:+ zeros (- decpt) +:+ ds
        else if (nd <=? decpt)%Z then ds +:+ zeros (decpt - nd) +:+ ".0"
        else String.substring 0 (Z.to_nat decpt) ds +:+ "." +:+
             String.substring (Z.to_nat decpt) (Z.to_nat (nd - decpt)) ds
      else
        let ex := (decpt - 1)%Z in
        String.substring 0 1 ds +:+
        (if (1 <? nd)%Z then "." +:+ String.substring 1 (Z.to_nat (nd - 1)) ds
         else "") +:+
        "e" +:+ (if (ex <? 0)%Z then "-" else "+") +:+
        (if (Z.abs ex <? 10)%Z then "0" else "") +:+ str_of_Z (Z.abs ex)
  end.

End Py.

(** ** Static reference data *)

Record Zone := {
  zone_id : string;
  lat : float;
  lon : float;
  scene_id : string;
}.

(** [DANGER_ZONES["zones"]] *)
Definition DANGER_ZONES : list Zone := [
  {| zone_id := "Z1"; lat := 40.20; lon := 49.80; scene_id := "SCENARIO_001" |};
  {| zone_id := "Z2"; lat := 40.05; lon := 49.9; scene_id := "SCENARIO_001" |};
  {| zone_id := "Z3"; lat := 39.90; lon := 50.00; scene_id := "SCENARIO_001" |}
].

Record Event := {
  ev_date : string;
  ev_area_km2 : float;
  ev_spill_id : string;
}.

Definition HISTORY_DATA : gmap string (list Event) :=
  <["Z1" := [
      {| ev_date := "2023-05-10"; ev_area_km2 := 1.8; ev_spill_id := "H1" |};
      {| ev_date := "2023-08-21"; ev_area_km2 := 2.2; ev_spill_id := "H2" |};
      {| ev_date := "2024-01-03"; ev_area_km2 := 1.1; ev_spill_id := "H3" |} ]]>
  (<["Z2" := [
      {| ev_date := "2022-11-02"; ev_area_km2 := 3.0; ev_spill_id := "H4" |} ]]>
  (<["Z3" := [
      {| ev_date := "2023-02-15"; ev_area_km2 := 0.9; ev_spill_id := "H5" |};
      {| ev_date := "2023-09-10"; ev_area_km2 := 1.2; ev_spill_id := "H6" |} ]]>
  ∅)).

Record Props := {
  spill_id : string;
  area_km2 : float;
  oil_type : string;
  thickness_class : string;
  confidence : float;
}.

Record Feature := {
  properties : Props;
  coordinates : float * float;
}.

Record FeatureCollection := {
  features : list Feature;
}.

Definition spill_data : gmap string FeatureCollection :=
  <["Z1" := {| features := [
      {| properties := {| spill_id := "S1"; area_km2 := 2.5; oil_type := "crude";
                          thickness_class := "thick"; confidence := 0.92 |};
         coordinates := (49.70, 40.45)%float |} ] |}]>
  (<["Z2" := {| features := [
      {| properties := {| spill_id := "S2"; area_km2 := 3.8; oil_type := "crude";
                          thickness_class := "medium"; confidence := 0.88 |};
         coordinates := (50.10, 40.40)%float |} ] |}]>
  (<["Z3" := {| features := [
      {| properties := {| spill_id := "S3"; area_km2 := 1.5; oil_type := "crude";
                          thickness_class := "thin"; confidence := 0.79 |};
         coordinates := (50.60, 40.32)%float |} ] |}]>
  ∅)).

(** [get_spill_geojson]: the zone's feature collection, an empty one for
    any other id. *)
Definition get_spill_geojson (zone_id : string) : FeatureCollection :=
  default {| features := [] |} (spill_data !! zone_id).

(** ** Context summarizer *)

Fixpoint get_zone_meta_in (zones : list Zone) (zid : string) : option Zone :=
  match zones with
  | [] => None
  | z :: zones' =>
      if String.eqb (zone_id z) zid then Some z else get_zone_meta_in zones' zid
  end.

Definition get_zone_meta (zid : string) : option Zone :=
  get_zone_meta_in DANGER_ZONES zid.

(** [sum(...)] over floats: left-to-right double addition from 0 (the
    compensation term newer CPython versions add changes the last bit at
    most, not the decimals printed for this table). *)
Definition py_sum (xs : list float) : float :=
  fold_left PrimFloat.add xs 0%float.

(** [max(items, key=...)]: the first item whose key no later key exceeds;
    an item replaces the current best only when its key is greater. *)
Definition py_max_by {A K : Type} (gt : K -> K -> bool) (key : A -> K)
    (first : A) (rest : list A) : A :=
  fold_left (fun best x => if gt (key x) (key best) then x else best) rest first.

Definition float_gt (a b : float) : bool := (b <? a)%float.
Definition str_gt (a b : string) : bool := String.ltb b a.

Definition no_history_text : string :=
  "No historical spills recorded for this zone.".

(** The f-string of the summary. *)
Definition summary_text (total_events : nat) (total_area max_area : float)
    (latest : Event) : string :=
  "This zone has " +:+ Py.str_of_N (N.of_nat total_events) +:+ " historical spills, " +:+
  "total affected area ~" +:+ Py.format_f 1 total_area +:+ " km². " +:+
  "Largest historical spill ~" +:+ Py.format_f 1 max_area +:+ " km². " +:+
  "Most recent spill on " +:+ ev_date latest +:+ " with area ~" +:+
  Py.format_f 1 (ev_area_km2 latest) +:+ " km².".

(** The sentence built from a non-empty list of events. *)
Definition history_sentence (first : Event) (rest : list Event) : string :=
  let events := first :: rest in
  let total_events := length events in
  let total_area := py_sum (map ev_area_km2 events) in
  let max_area := py_max_by float_gt id (ev_area_km2 first) (map ev_area_km2 rest) in
  let latest := py_max_by str_gt ev_date first rest in
  summary_text total_events total_area max_area latest.

Definition get_history_summary (zone_id : string) : string :=
  match default [] (HISTORY_DATA !! zone_id) with
  | [] => no_history_text
  | first :: rest => history_sentence first rest
  end.

(** ** Assistant gateway *)

(** A message dict.  The content is a string in every message the script
    builds itself; the assistant entry of the transcript holds whatever
    the gateway returned, [None] included. *)
Record ChatMessage := {
  role : string;
  content : option string;
}.

(** The arguments of [client.chat.completions.create]. *)
Record Request := {
  model : string;
  messages : list ChatMessage;
  temperature : float;
  max_tokens : nat;
}.

(** What the external service does with a request: it answers with a
    completion (the [message.content] of each of its choices, which the
    client library types [Optional[str]]) or the call raises an exception
    [e] (here: the text [str(e)]). *)
Inductive Reply : Type :=
| Completion (choices : list (option string))
| Failure (e : string).

Definition Service := Request -> Reply.

(** [client = OpenAI(api_key=api_key) if api_key else None] *)
Definition Client := option Service.

Definition nl : string := String (ascii_of_nat 10) "".

Definition system_prompt : string :=
  "You are an expert assisting operators with offshore oil spill analysis. " +:+
  "Use the provided zone, spill attributes, and historical patterns to infer " +:+
  "likely sources, risk level, and recommended actions. Be concise but specific " +:+
  "and avoid inventing data not implied by the context.".

Definition user_context (zone_meta : Zone) (spill_props : Props)
    (history_text user_question : string) : string :=
  "Zone context:" +:+ nl +:+
  "- Name: " +:+ zone_id zone_meta +:+ nl +:+
  "- Zone ID: " +:+ zone_id zone_meta +:+ nl +:+
  "- Scene ID: " +:+ scene_id zone_meta +:+ nl +:+
  "- Approximate coordinates: " +:+ Py.repr (lat zone_meta) +:+ " N, " +:+
     Py.repr (lon zone_meta) +:+ " E" +:+ nl +:+
  nl +:+
  "Current spill:" +:+ nl +:+
  "- Spill ID: " +:+ spill_id spill_props +:+ nl +:+
  "- Oil type: " +:+ oil_type spill_props +:+ nl +:+
  "- Area: " +:+ Py.repr (area_km2 spill_props) +:+ " km²" +:+ nl +:+
  "- Thickness class: " +:+ thickness_class spill_props +:+ nl +:+
  "- Detection confidence: " +:+ Py.format_pct0 (confidence spill_props) +:+ nl +:+
  nl +:+
  "Historical pattern summary:" +:+ nl +:+
  history_text +:+ nl +:+
  nl +:+
  "Operator question:" +:+ nl +:+
  user_question +:+ nl +:+
  nl +:+
  "Respond as an expert spill analyst. Include:" +:+ nl +:+
  "- Interpretation of historical trend" +:+ nl +:+
  "- Likely source/risk drivers" +:+ nl +:+
  "- Risk level (LOW / MEDIUM / HIGH)" +:+ nl +:+
  "- 2–3 concrete recommended actions.".

Definition no_key_text : string :=
  "⚠️ LLM API key not configured. " +:+
  "Set OPENAI_API_KEY in your environment to enable the assistant.".

Definition error_prefix : string := "⚠️ Error calling LLM API: ".

(** The one request of a call. *)
Definition chat_request (zone_meta : Zone) (spill_props : Props)
    (history_text user_question : string) : Request := {|
  model := "gpt-4o-mini";
  messages := [
    {| role := "system"; content := Some system_prompt |};
    {| role := "user";
       content :=
         Some (user_context zone_meta spill_props history_text user_question) |} ];
  temperature := 0.3;
  max_tokens := 400 |}.

(** [get_ai_response]: the value returned, a string or [None].
    [zone_meta] is what [get_zone_meta] returned, [None] included: its
    [.get] then raises before the [try].  Inside the [try], a failing call
    and an empty [choices] list ([choices[0]]) are both caught by
    [except Exception]; the content of the first choice is returned as it
    is (line 250). *)
Definition get_ai_response (client : Client) (zone_meta : option Zone)
    (spill_props : Props) (history_text user_question : string)
  : Py.result (option string) :=
  match client with
  | None => Py.Ok (Some no_key_text)
  | Some create =>
      match zone_meta with
      | None => Py.Raise Py.AttributeError
      | Some zm =>
          match create (chat_request zm spill_props history_text user_question) with
          | Completion (content :: _) => Py.Ok content
          | Completion [] =>
              Py.Ok (Some (error_prefix +:+ "list index out of range"))
          | Failure e => Py.Ok (Some (error_prefix +:+ e))
          end
      end
  end.

(** ** Session state *)

Inductive Status : Type := idle | cleaning | done.

Record State := {
  selected_zone_id : option string;
  selected_spill_id : option string;
  chat_messages : list ChatMessage;
  cleanup_status : gmap string Status;
}.

(** [init_cleanup_status]: every spill of every zone starts idle. *)
Definition init_cleanup_status : gmap string Status :=
  fold_left (fun status zone =>
    fold_left (fun status f =>
      let sid := spill_id (properties f) in
      if Py.truthy (Some sid) then <[sid := idle]> status else status)
      (features (get_spill_geojson (zone_id zone))) status)
    DANGER_ZONES ∅.

(** The session state the first run starts from. *)
Definition initial_state : State := {|
  selected_zone_id := None;
  selected_spill_id := None;
  chat_messages := [];
  cleanup_status := init_cleanup_status |}.

(** [cleanup_status.get(sid, "idle")] *)
Definition status_of (st : State) (sid : string) : Status :=
  default idle (cleanup_status st !! sid).

(** ** The script as a state-and-exception computation *)

Definition M (A : Type) : Type := State -> Py.result A * State.

Definition ret {A} (a : A) : M A := fun st => (Py.Ok a, st).
Definition raise {A} (e : Py.exn) : M A := fun st => (Py.Raise e, st).
Definition bind {A B} (m : M A) (k : A -> M B) : M B :=
  fun st => match m st with
            | (Py.Ok a, st') => k a st'
            | (Py.Raise e, st') => (Py.Raise e, st')
            end.
Definition get_state : M State := fun st => (Py.Ok st, st).
Definition modify (f : State -> State) : M unit := fun st => (Py.Ok tt, f st).

Notation "x <- m ;; k" := (bind m (fun x => k))
  (at level 100, m at next level, right associativity).
Notation "m ;;; k" := (bind m (fun _ => k))
  (at level 100, right associativity).

(** [st.rerun()] *)
Definition rerun : M unit := raise Py.RerunException.

(** A value that Python finds or else raises. *)
Definition expect {A} (o : option A) (e : Py.exn) : M A :=
  match o with Some a => ret a | None => raise e end.

Definition set_selected_zone_id (z : option string) (st : State) : State :=
  {| selected_zone_id := z; selected_spill_id := selected_spill_id st;
     chat_messages := chat_messages st; cleanup_status := cleanup_status st |}.
Definition set_selected_spill_id (s : option string) (st : State) : State :=
  {| selected_zone_id := selected_zone_id st; selected_spill_id := s;
     chat_messages := chat_messages st; cleanup_status := cleanup_status st |}.
Definition set_chat_messages (c : list ChatMessage) (st : State) : State :=
  {| selected_zone_id := selected_zone_id st; selected_spill_id := selected_spill_id st;
     chat_messages := c; cleanup_status := cleanup_status st |}.
Definition set_cleanup_status (sid : string) (v : Status) (st : State) : State :=
  {| selected_zone_id := selected_zone_id st; selected_spill_id := selected_spill_id st;
     chat_messages := chat_messages st;
     cleanup_status := <[sid := v]> (cleanup_status st) |}.

(** What the widgets return in one run of the script. *)
Record Widgets := {
  (** [st.selectbox("Select Danger Zone")] *)
  zone_selectbox : string;
  (** [st_folium(...)["last_object_clicked"]]: [lat] and [lng] *)
  last_object_clicked : option (float * float);
  (** [st.selectbox("Spill for cleanup")] *)
  cleanup_spill_select : string;
  (** the cleanup button was clicked *)
  cleanup_click : bool;
  (** [st.selectbox("Spill Focus")] *)
  assistant_spill_select : string;
  (** [st.chat_input(...)] *)
  chat_input : option string;
}.

(** *** Sidebar: zone selection (lines 326-352) *)

Definition zone_options : list string :=
  "None" :: map zone_id DANGER_ZONES.

Definition new_zone_id (selected_zone_option : string) : option string :=
  if String.eqb selected_zone_option "None" then None
  else Some (Py.split_head " - " selected_zone_option).

(** The three assignments made on a zone change, in the sidebar and in
    the map-click handler. *)
Definition change_zone (z : option string) : M unit :=
  modify (set_selected_zone_id z) ;;;
  modify (set_selected_spill_id None) ;;;
  modify (set_chat_messages []).

Definition sidebar_zone_selection (selected_zone_option : string) : M unit :=
  st <- get_state ;;
  let z := new_zone_id selected_zone_option in
  if decide (z = selected_zone_id st) then ret tt
  else change_zone z ;;; rerun.

(** *** Map click (lines 516-531) *)

(** Line 523, [((zone["lat"] - clat) ** 2 + (zone["lon"] - clon) ** 2) ** 0.5]:
    first square, second square, sum, root; an exception of a power
    ends the evaluation. *)
Definition click_distance (pow : Py.LibmPow) (clat clon : float) (zone : Zone)
  : Py.result Py.num :=
  match Py.pow_2 pow (lat zone - clat) with
  | Py.Raise e => Py.Raise e
  | Py.Ok a =>
      match Py.pow_2 pow (lon zone - clon) with
      | Py.Raise e => Py.Raise e
      | Py.Ok b => Py.pow_half pow (a + b)
      end
  end.

(** The body of the loop on [(min_dist, closest)].  Comparing a complex
    number with a float raises [TypeError]. *)
Definition nearest_step (pow : Py.LibmPow) (clat clon : float)
    (acc : float * option Zone) (zone : Zone) : Py.result (float * option Zone) :=
  match click_distance pow clat clon zone with
  | Py.Raise e => Py.Raise e
  | Py.Ok Py.PyComplex => Py.Raise Py.TypeError
  | Py.Ok (Py.PyFloat d) =>
      Py.Ok (if (d <? fst acc)%float then (d, Some zone) else acc)
  end.

(** The loop over the zones; an exception leaves it at once. *)
Fixpoint nearest_loop (pow : Py.LibmPow) (clat clon : float) (zones : list Zone)
    (acc : float * option Zone) : Py.result (float * option Zone) :=
  match zones with
  | [] => Py.Ok acc
  | zone :: zones' =>
      match nearest_step pow clat clon acc zone with
      | Py.Raise e => Py.Raise e
      | Py.Ok acc' => nearest_loop pow clat clon zones' acc'
      end
  end.

Definition nearest_among (pow : Py.LibmPow) (zones : list Zone) (clat clon : float)
  : Py.result (float * option Zone) :=
  nearest_loop pow clat clon zones (infinity, None).

Definition click_threshold : float := 0.2.

Definition map_click_on (pow : Py.LibmPow) (clicked : option (float * float))
  : M unit :=
  match clicked with
  | None => ret tt
  | Some (clat, clon) =>
      match nearest_among pow DANGER_ZONES clat clon with
      | Py.Raise e => raise e
      | Py.Ok (min_dist, Some closest) =>
          if (min_dist <? click_threshold)%float
          then change_zone (Some (zone_id closest)) ;;; rerun
          else ret tt
      | Py.Ok (_, None) => ret tt
      end
  end.

(** The zone a click selects, if any: the loop completes and
    [closest and min_dist < 0.2]. *)
Definition resolve_click_on (pow : Py.LibmPow) (clat clon : float) : option Zone :=
  match nearest_among pow DANGER_ZONES clat clon with
  | Py.Ok (min_dist, Some closest) =>
      if (min_dist <? click_threshold)%float then Some closest else None
  | _ => None
  end.

(** A C library whose [pow] is correctly rounded at the two exponents of
    line 523, the double product for 2 and the double square root for
    0.5, and leaves the detection of an overflow to its caller. *)
Definition exact_pow : Py.LibmPow := fun x y =>
  (if (y =? 0.5)%float then PrimFloat.sqrt x else (x * x)%float, false).

(** The click handler on that library. *)
Definition resolve_click (clat clon : float) : option Zone :=
  resolve_click_on exact_pow clat clon.

Definition map_click (clicked : option (float * float)) : M unit :=
  map_click_on exact_pow clicked.

(** *** Spill selectbox (lines 544-565 and 618-637, the same statements) *)

Definition spill_label (p : Props) : string :=
  spill_id p +:+ " | " +:+ thickness_class p +:+ " | " +:+
  Py.repr (area_km2 p) +:+ " km²".

Definition spill_labels_of (fs : list Feature) : list string :=
  map (fun f => spill_label (properties f)) fs.
Definition spill_ids_of (fs : list Feature) : list string :=
  map (fun f => spill_id (properties f)) fs.

(** Lines 552-553 / 626-627: a stored spill id that is not one of the
    zone's spills is replaced by the first spill. *)
Definition coerce_spill (spill_ids : list string) : M unit :=
  st <- get_state ;;
  if Py.contains spill_ids (selected_spill_id st) then ret tt
  else
    first <- expect (head spill_ids) Py.IndexError ;;
    modify (set_selected_spill_id (Some first)).

(** Lines 555-565 / 629-637: the selectbox, placed on the stored spill,
    and the assignment of the spill it returned.
    [selected_spill_label] is what the selectbox returned.  Returns the
    spill id now stored in the session state. *)
Definition select_spill (fs : list Feature) (selected_spill_label : string)
  : M string :=
  let spill_labels := spill_labels_of fs in
  let spill_ids := spill_ids_of fs in
  st <- get_state ;;
  default_idx <- expect (match selected_spill_id st with
                         | Some sid => Py.index spill_ids sid
                         | None => None
                         end) Py.ValueError ;;
  i <- expect (Py.index spill_labels selected_spill_label) Py.ValueError ;;
  sid <- expect (nth_error spill_ids i) Py.IndexError ;;
  modify (set_selected_spill_id (Some sid)) ;;;
  ret sid.

Definition spill_selectbox (fs : list Feature) (selected_spill_label : string)
  : M string :=
  coerce_spill (spill_ids_of fs) ;;;
  select_spill fs selected_spill_label.

(** *** Cleanup button (lines 567-593) *)

(** [st.button(..., disabled=disabled)]: a disabled button is never
    reported as clicked. *)
Definition st_button (disabled clicked : bool) : bool :=
  negb disabled && clicked.

Definition cleanup_button (sid : string) (clicked : bool) : M unit :=
  st <- get_state ;;
  let current_status := status_of st sid in
  let disabled := match current_status with done => true | _ => false end in
  if st_button disabled clicked then
    match current_status with
    | idle => modify (set_cleanup_status sid cleaning)
    | cleaning => modify (set_cleanup_status sid done)
    | done => ret tt
    end ;;;
    rerun
  else ret tt.

(** Lines 534-598. *)
Definition cleanup_control (selected_spill_label : string) (clicked : bool)
  : M unit :=
  st <- get_state ;;
  if Py.truthy (selected_zone_id st) then
    match features (get_spill_geojson (default "" (selected_zone_id st))) with
    | [] => ret tt
    | fs =>
        sid <- spill_selectbox fs selected_spill_label ;;
        cleanup_button sid clicked
    end
  else ret tt.

(** *** Assistant column (lines 603-673) *)

Definition append_message (m : ChatMessage) : M unit :=
  st <- get_state ;;
  modify (set_chat_messages (chat_messages st ++ [m])).

(** Lines 665-670. *)
Definition chat_turn (client : Client) (zone_meta : option Zone)
    (spill_props : Props) (history_text : string) (user_query : option string)
  : M unit :=
  match user_query with
  | None => ret tt
  | Some q =>
      if Py.truthy (Some q) then
        append_message {| role := "user"; content := Some q |} ;;;
        ai_answer <- (fun st =>
          (get_ai_response client zone_meta spill_props history_text q, st)) ;;
        append_message {| role := "assistant"; content := ai_answer |} ;;;
        rerun
      else ret tt
  end.

Definition assistant_panel (client : Client) (selected_spill_label : string)
    (user_query : option string) : M unit :=
  st <- get_state ;;
  if Py.truthy (selected_zone_id st) then
    let zone_id := default "" (selected_zone_id st) in
    match features (get_spill_geojson zone_id) with
    | [] => ret tt
    | fs =>
        sid <- spill_selectbox fs selected_spill_label ;;
        sel_feature <- expect
          (find (fun f => String.eqb (spill_id (properties f)) sid) fs)
          Py.StopIteration ;;
        let spill_props := properties sel_feature in
        let zone_meta := get_zone_meta zone_id in
        let history_text := get_history_summary zone_id in
        chat_turn client zone_meta spill_props history_text user_query
    end
  else ret tt.

(** *** One run of the script *)

(** The four handlers in the order of the script, for a given C library
    [pow]. *)
Definition script_run_on (pow : Py.LibmPow) (client : Client) (w : Widgets)
  : M unit :=
  sidebar_zone_selection (zone_selectbox w) ;;;
  map_click_on pow (last_object_clicked w) ;;;
  cleanup_control (cleanup_spill_select w) (cleanup_click w) ;;;
  assistant_panel client (assistant_spill_select w) (chat_input w).

(** A run where the library's [pow] is [exact_pow]. *)
Definition script_run (client : Client) (w : Widgets) : M unit :=
  script_run_on exact_pow client w.

(** The session state a run leaves behind. *)
Definition after_run (client : Client) (w : Widgets) (st : State) : State :=
  snd (script_run client w st).

(** States a session can be in between runs. *)
Inductive reachable : State -> Prop :=
| reachable_initial : reachable initial_state
| reachable_run client w st :
    reachable st -> reachable (after_run client w st).

(** A session: the runs triggered by a sequence of interactions. *)
Definition session (client : Client) (ws : list Widgets) (st : State) : State :=
  fold_left (fun st w => after_run client w st) ws st.

(** The session state after a zone change to [z]. *)
Definition zone_changed (z : option string) (st : State) : State :=
  {| selected_zone_id := z; selected_spill_id := None; chat_messages := [];
     cleanup_status := cleanup_status st |}.

(** Spill ids and selectbox labels of the selected zone (none when no zone
    is selected). *)
Definition zone_features (st : State) : list Feature :=
  if Py.truthy (selected_zone_id st)
  then features (get_spill_geojson (default "" (selected_zone_id st)))
  else [].
Definition zone_spill_ids (st : State) : list string :=
  spill_ids_of (zone_features st).
Definition zone_spill_labels (st : State) : list string :=
  spill_labels_of (zone_features st).

(** One-way progression of a cleanup status: it stays, or takes one step
    forward. *)
Definition advances (a b : Status) : Prop :=
  a = b \/ (a = idle /\ b = cleaning) \/ (a = cleaning /\ b = done).

Definition rank (s : Status) : nat :=
  match s with idle => 0 | cleaning => 1 | done => 2 end.

(** The selection invariant: a stored spill id belongs to the selected
    zone. *)
Definition valid_selection (st : State) : Prop :=
  forall s, selected_spill_id st = Some s -> In s (zone_spill_ids st).

(** ** Further parts of the script *)

(** [get_spill_color] (lines 270-282); the status is the string stored in
    the status table. *)
Definition base_colors : gmap string string :=
  <["thick" := "red"]> (<["medium" := "orange"]> (<["thin" := "yellow"]> ∅)).

Definition get_spill_color (thickness status : string) : string :=
  if String.eqb status "done" then "green"
  else if String.eqb status "cleaning" then "blue"
  else default "gray" (base_colors !! thickness).

(** [init_cleanup_status] with the list of zones as an argument. *)
Definition init_cleanup_status_in (zones : list Zone) : gmap string Status :=
  fold_left (fun status zone =>
    fold_left (fun status f =>
      let sid := spill_id (properties f) in
      if Py.truthy (Some sid) then <[sid := idle]> status else status)
      (features (get_spill_geojson (zone_id zone))) status)
    zones ∅.

(** Lines 329-335: the position of the selected zone in the dropdown,
    [idx]. *)
Fixpoint zone_index_from (zones : list Zone) (selected : option string)
    (i : nat) : nat :=
  match zones with
  | [] => 0
  | z :: zones' =>
      if decide (Some (zone_id z) = selected) then i + 1
      else zone_index_from zones' selected (S i)
  end.

Definition zone_select_index (st : State) : nat :=
  let current_selection :=
    if Py.truthy (selected_zone_id st) then default "" (selected_zone_id st)
    else "None" in
  if String.eqb current_selection "None" then 0
  else zone_index_from DANGER_ZONES (selected_zone_id st) 0.

(** Lines 401-412: centre and zoom of the map. *)
Definition map_view (st : State) : (float * float) * nat :=
  if Py.truthy (selected_zone_id st) then
    match get_zone_meta (default "" (selected_zone_id st)) with
    | Some zm => ((lat zm, lon zm), 10)
    | None => ((40.4, 50.0)%float, 8)
    end
  else ((40.4, 50.0)%float, 8).

(** Lines 421-472: where the info box of the selected zone is put, when
    it is drawn. *)
Definition info_label_position (st : State) : option (float * float) :=
  match zone_features st with
  | [] => None
  | _ =>
      let map_center := fst (map_view st) in
      Some (fst map_center + 0.10, snd map_center + 0.10)%float
  end.

(** ** Vocabulary of the properties *)

(** A double that is not a NaN. *)
Definition number (x : float) : Prop := Prim2SF x <> S754_nan.

(** A double that is a NaN. *)
Definition nan_sf (x : float) : Prop := Prim2SF x = S754_nan.

(** A property of the state that every step of a computation keeps is
    kept by the computation. *)
Definition keeps {A} (P : State -> State -> Prop) (m : M A) : Prop :=
  forall st, P st (snd (m st)).

(** The stored spill id after lines 552-553 / 626-627. *)
Definition coerced (ids : list string) (sel : option string) : option string :=
  if Py.contains ids sel then sel else head ids.

(** The two transcript entries of a chat turn. *)
Definition user_message (q : string) : ChatMessage :=
  {| role := "user"; content := Some q |}.

Definition assistant_message (a : option string) : ChatMessage :=
  {| role := "assistant"; content := a |}.

(** The cleanup statuses are untouched. *)
Definition same_cleanup (st st' : State) : Prop :=
  cleanup_status st' = cleanup_status st.

(** Every cleanup status stays or takes one step forward. *)
Definition cleanup_advances (st st' : State) : Prop :=
  forall sid, advances (status_of st sid) (status_of st' sid).

(** A run in which the zone dropdown shows [zone_option] and nothing
    else is touched. *)
Definition widgets_idle (zone_option : string) : Widgets := {|
  zone_selectbox := zone_option;
  last_object_clicked := None;
  cleanup_spill_select := "";
  cleanup_click := false;
  assistant_spill_select := "";
  chat_input := None |}.

(** The session state with zone Z1 and its spill S1 selected, before any
    cleanup. *)
Definition z1_selected : State := {|
  selected_zone_id := Some "Z1";
  selected_spill_id := Some "S1";
  chat_messages := [];
  cleanup_status := init_cleanup_status |}.

(** A run in which the operator clicks the cleanup button for S1. *)
Definition press_cleanup_s1 : Widgets := {|
  zone_selectbox := "Z1";
  last_object_clicked := None;
  cleanup_spill_select := "S1 | thick | 2.5 km²";
  cleanup_click := true;
  assistant_spill_select := "S1 | thick | 2.5 km²";
  chat_input := None |}.

(** The selection invariant carries over from [st] to [st']. *)
Definition keeps_valid (st st' : State) : Prop :=
  valid_selection st -> valid_selection st'.

(** A service whose every call raises. *)
Definition failing_service : Service := fun _ => Failure "Connection error.".

(** A service whose completions carry no text: the [message.content] of
    the one choice is [None]. *)
Definition empty_content_service : Service := fun _ => Completion [None].

(** A run in which the map reports a click at [(clat, clon)] while the
    zone dropdown shows [zone_option]. *)
Definition click_at (zone_option : string) (clat clon : float) : Widgets := {|
  zone_selectbox := zone_option;
  last_object_clicked := Some (clat, clon);
  cleanup_spill_select := "";
  cleanup_click := false;
  assistant_spill_select := "";
  chat_input := None |}.

(** The session state after the operator has selected Z1 and asked one
    question about its spill S1: a spill is selected and the transcript
    holds one question/answer pair. *)
Definition z1_asked : State := {|
  selected_zone_id := Some "Z1";
  selected_spill_id := Some "S1";
  chat_messages :=
    [ {| role := "user"; content := Some "Why?" |};
      {| role := "assistant";
         content := Some (error_prefix +:+ "Connection error.") |} ];
  cleanup_status := init_cleanup_status |}.

(** A run in which the operator submits a question about S1. *)
Definition ask_about_s1 : Widgets := {|
  zone_selectbox := "Z1";
  last_object_clicked := None;
  cleanup_spill_select := "S1 | thick | 2.5 km²";
  cleanup_click := false;
  assistant_spill_select := "S1 | thick | 2.5 km²";
  chat_input := Some "Why?" |}.

(** What the sentence reports about a list of events. *)
Definition reports (events : list Event) (text : string) : Prop :=
  exists max_area latest,
    In max_area (map ev_area_km2 events) /\
    Forall (fun a => (a <=? max_area)%float = true) (map ev_area_km2 events) /\
    In latest events /\
    Forall (fun e => String.leb (ev_date e) (ev_date latest) = true) events /\
    text = summary_text (length events) (py_sum (map ev_area_km2 events))
             max_area latest.

(** Invariant of the loop of the map-click handler after the zones
    [seen], for the distances [d]: nothing chosen and no distance below
    infinity yet, or the chosen zone carries the running minimum, every
    zone before it is not at most as far and every zone after it is not
    nearer. *)
Definition nearest_inv (d : Zone -> float) (seen : list Zone)
    (acc : float * option Zone) : Prop :=
  match acc with
  | (m, None) =>
      m = infinity /\ forall z, In z seen -> (d z <? infinity)%float = false
  | (m, Some c) =>
      m = d c /\ (d c <? infinity)%float = true /\
      exists before after, seen = before ++ c :: after /\
        (forall z, In z before -> (d z <=? d c)%float = false) /\
        (forall z, In z after -> (d z <? d c)%float = false)
  end.

(** What an untouched widget returns: a selectbox its option at [index],
    clicks and inputs nothing. *)
Definition default_spill_label (st : State) : string :=
  let fs := zone_features st in
  match coerced (spill_ids_of fs) (selected_spill_id st) with
  | Some sid =>
      match Py.index (spill_ids_of fs) sid with
      | Some default_idx => nth default_idx (spill_labels_of fs) ""
      | None => ""
      end
  | None => ""
  end.

Definition untouched (st : State) : Widgets := {|
  zone_selectbox := nth (zone_select_index st) zone_options "";
  last_object_clicked := None;
  cleanup_spill_select := default_spill_label st;
  cleanup_click := false;
  assistant_spill_select := default_spill_label st;
  chat_input := None |}.

(** What one run of the script can do to the state [st], given the
    widget values [w] and the library's [pow]: its outcome and the state
    it leaves. *)
Inductive run_effect (pow : Py.LibmPow) (w : Widgets) (st : State)
  : Py.result unit -> State -> Prop :=
| effect_dropdown :
    new_zone_id (zone_selectbox w) <> selected_zone_id st ->
    run_effect pow w st (Py.Raise Py.RerunException)
      (zone_changed (new_zone_id (zone_selectbox w)) st)
| effect_click clat clon zone :
    last_object_clicked w = Some (clat, clon) ->
    resolve_click_on pow clat clon = Some zone ->
    In zone DANGER_ZONES ->
    run_effect pow w st (Py.Raise Py.RerunException)
      (zone_changed (Some (zone_id zone)) st)
| effect_click_error clat clon e :
    last_object_clicked w = Some (clat, clon) ->
    nearest_among pow DANGER_ZONES clat clon = Py.Raise e ->
    e = Py.OverflowError \/ e = Py.TypeError ->
    run_effect pow w st (Py.Raise e) st
| effect_nothing_to_select :
    zone_features st = [] ->
    run_effect pow w st (Py.Ok tt) st
| effect_cleanup_label_unknown s :
    In s (zone_spill_ids st) ->
    ~ In (cleanup_spill_select w) (zone_spill_labels st) ->
    run_effect pow w st (Py.Raise Py.ValueError) (set_selected_spill_id (Some s) st)
| effect_cleanup s v :
    In s (zone_spill_ids st) ->
    In (cleanup_spill_select w) (zone_spill_labels st) ->
    cleanup_click w = true ->
    (status_of st s = idle /\ v = cleaning) \/ (status_of st s = cleaning /\ v = done) ->
    run_effect pow w st (Py.Raise Py.RerunException)
      (set_cleanup_status s v (set_selected_spill_id (Some s) st))
| effect_assistant_label_unknown s :
    In s (zone_spill_ids st) ->
    In (cleanup_spill_select w) (zone_spill_labels st) ->
    ~ In (assistant_spill_select w) (zone_spill_labels st) ->
    run_effect pow w st (Py.Raise Py.ValueError) (set_selected_spill_id (Some s) st)
| effect_chat s q answer :
    In s (zone_spill_ids st) ->
    In (cleanup_spill_select w) (zone_spill_labels st) ->
    In (assistant_spill_select w) (zone_spill_labels st) ->
    chat_input w = Some q -> q <> "" ->
    run_effect pow w st (Py.Raise Py.RerunException)
      (set_chat_messages
         (chat_messages st ++ [user_message q; assistant_message answer])
         (set_selected_spill_id (Some s) st))
| effect_spill_selected s :
    In s (zone_spill_ids st) ->
    In (cleanup_spill_select w) (zone_spill_labels st) ->
    In (assistant_spill_select w) (zone_spill_labels st) ->
    run_effect pow w st (Py.Ok tt) (set_selected_spill_id (Some s) st).

(** A transcript made of question/answer pairs. *)
Inductive paired : list ChatMessage -> Prop :=
| paired_nil : paired []
| paired_turn msgs q answer :
    paired msgs -> paired (msgs ++ [user_message q; assistant_message answer]).

(** The states of sessions in which the zone dropdown only ever returns
    one of its options. *)
Inductive ui_reachable : State -> Prop :=
| ui_initial : ui_reachable initial_state
| ui_run client w st :
    ui_reachable st -> In (zone_selectbox w) zone_options ->
    ui_reachable (after_run client w st).

(** The selected zone is none or a zone of the scenario. *)
Definition zone_known (st : State) : Prop :=
  selected_zone_id st = None \/
  exists zone, In zone DANGER_ZONES /\ selected_zone_id st = Some (zone_id zone).

(** ** Properties *)

(** *** The Python primitives on sample values *)

Example repr_samples :
  (Py.repr 2.5, Py.repr 40.20, Py.repr 49.9, Py.repr (0.1 + 0.2), Py.repr 100,
   Py.repr 1e16, Py.repr 1e-5) =
  ("2.5", "40.2", "49.9", "0.30000000000000004", "100.0", "1e+16", "1e-05").
Proof. vm_compute. reflexivity. Qed.

Example format_samples :
  (Py.format_f 1 5.1, Py.format_f 1 0.25, Py.format_f 1 0.35, Py.format_f 2 40.2,
   Py.format_f 1 (-0.01), Py.format_pct0 0.92) =
  ("5.1", "0.2", "0.3", "40.20", "-0.0", "92%").
Proof. vm_compute. reflexivity. Qed.

Example split_head_samples :
  (Py.split_head " - " "Z1 - North", Py.split_head " - " "Z1",
   new_zone_id "None", new_zone_id "Z2") =
  ("Z1", "Z1", None, Some "Z2").
Proof. vm_compute. reflexivity. Qed.

Example spill_label_sample :
  zone_spill_labels z1_selected = ["S1 | thick | 2.5 km²"].
Proof. vm_compute. reflexivity. Qed.

(** *** Running the monad *)

Ltac run :=
  unfold bind, ret, raise, rerun, modify, get_state, expect in *; cbn in *.

Lemma bind_run {A B} (m : M A) (k : A -> M B) st :
  bind m k st = match m st with
                | (Py.Ok a, st') => k a st'
                | (Py.Raise e, st') => (Py.Raise e, st')
                end.
Proof. reflexivity. Qed.

Lemma keeps_bind {A B} (P Q R : State -> State -> Prop) (m : M A) (k : A -> M B) :
  (forall a b, P a b -> R a b) ->
  (forall a b c, P a b -> Q b c -> R a c) ->
  keeps P m -> (forall a, keeps Q (k a)) -> keeps R (bind m k).
Proof.
  intros Hstop Hseq Hm Hk st. rewrite bind_run.
  specialize (Hm st). destruct (m st) as [[a|e] st']; cbn in *; [|auto].
  eapply Hseq; [exact Hm | apply Hk].
Qed.

(** *** Static data *)

Lemma spill_data_keys z :
  z = "Z1" \/ z = "Z2" \/ z = "Z3" \/ spill_data !! z = None.
Proof.
  destruct (decide (z = "Z1")) as [|n1]; [tauto|].
  destruct (decide (z = "Z2")) as [|n2]; [tauto|].
  destruct (decide (z = "Z3")) as [|n3]; [tauto|].
  do 3 right. unfold spill_data.
  rewrite !lookup_insert_ne by congruence. apply lookup_empty.
Qed.

Lemma features_cases z :
  (z = "Z1" \/ z = "Z2" \/ z = "Z3") \/ features (get_spill_geojson z) = [].
Proof.
  destruct (spill_data_keys z) as [H|[H|[H|H]]]; [tauto..|].
  right. unfold get_spill_geojson. rewrite H. reflexivity.
Qed.

Lemma known_zone_meta z :
  features (get_spill_geojson z) <> [] -> exists zm, get_zone_meta z = Some zm.
Proof.
  destruct (features_cases z) as [[-> | [-> | ->]] | H]; [eexists; reflexivity..|done].
Qed.

(** *** The spill selectbox *)

Lemma contains_In ids s : Py.contains ids (Some s) = true <-> In s ids.
Proof.
  cbn. rewrite existsb_exists. split.
  - intros (x & Hx & He). apply String.eqb_eq in He. by subst.
  - intros H. exists s. split; [done | apply String.eqb_refl].
Qed.

Lemma index_of_In ids s : In s ids -> exists i, Py.index ids s = Some i.
Proof.
  induction ids as [|y ids IH]; cbn; [done|].
  intros [->|H].
  - rewrite String.eqb_refl. eauto.
  - destruct (String.eqb y s); [eauto|].
    destruct (IH H) as [i ->]. cbn. eauto.
Qed.

Lemma index_In l x i : Py.index l x = Some i -> In x l.
Proof.
  revert i. induction l as [|y l IH]; cbn; [done|]. intros i.
  destruct (String.eqb y x) eqn:E.
  - apply String.eqb_eq in E. tauto.
  - destruct (Py.index l x); cbn; [|done]. intros _. right. eauto.
Qed.

Lemma index_lt l x i : Py.index l x = Some i -> i < length l.
Proof.
  revert i. induction l as [|y l IH]; cbn; [done|]. intros i.
  destruct (String.eqb y x).
  - intros [= <-]. lia.
  - destruct (Py.index l x) as [j|]; cbn; [|done].
    intros [= <-]. specialize (IH j eq_refl). lia.
Qed.

Lemma set_spill_same st : set_selected_spill_id (selected_spill_id st) st = st.
Proof. by destruct st. Qed.

Lemma coerce_spill_run f fs st :
  let ids := spill_ids_of (f :: fs) in
  coerce_spill ids st =
    (Py.Ok tt, set_selected_spill_id (coerced ids (selected_spill_id st)) st).
Proof.
  cbn. unfold coerce_spill, coerced. run.
  destruct (Py.contains _ _); cbn; [by rewrite set_spill_same | done].
Qed.

Lemma coerced_In f fs sel :
  exists s, coerced (spill_ids_of (f :: fs)) sel = Some s /\
            In s (spill_ids_of (f :: fs)).
Proof.
  unfold coerced. destruct (Py.contains _ sel) eqn:E.
  - destruct sel as [s|]; [|done]. exists s. split; [done|].
    by apply contains_In.
  - cbn. eauto.
Qed.

Lemma coerced_selected ids s : In s ids -> coerced ids (Some s) = Some s.
Proof. intros H. unfold coerced. by rewrite (proj2 (contains_In ids s) H). Qed.

(** What the selectbox block does, for any non-empty feature list and any
    returned label. *)
Lemma spill_selectbox_run f fs lbl st :
  let ids := spill_ids_of (f :: fs) in
  match Py.index (spill_labels_of (f :: fs)) lbl with
  | None =>
      spill_selectbox (f :: fs) lbl st =
        (Py.Raise Py.ValueError,
         set_selected_spill_id (coerced ids (selected_spill_id st)) st)
  | Some i =>
      exists sid, nth_error ids i = Some sid /\
        spill_selectbox (f :: fs) lbl st =
          (Py.Ok sid, set_selected_spill_id (Some sid) st)
  end.
Proof.
  intros ids. unfold spill_selectbox, select_spill. rewrite bind_run.
  rewrite coerce_spill_run. fold ids.
  destruct (coerced_In f fs (selected_spill_id st)) as (s & Hs & Hin).
  fold ids in Hs, Hin. rewrite Hs.
  destruct (index_of_In _ _ Hin) as [j Hj].
  assert (Hlen : length (spill_labels_of (f :: fs)) = length ids)
    by (unfold ids, spill_labels_of, spill_ids_of; by rewrite !length_map).
  generalize dependent (spill_labels_of (f :: fs)). intros labels Hlen.
  clearbody ids. run. rewrite Hj. cbn.
  destruct (Py.index labels lbl) as [i|] eqn:Hi; cbn; [|done].
  apply index_lt in Hi. rewrite Hlen in Hi.
  destruct (nth_error ids i) as [sid|] eqn:Hn.
  - exists sid. split; [done|]. by cbn.
  - apply nth_error_None in Hn. lia.
Qed.

(** In every case the block leaves a spill of the list selected and
    touches nothing else. *)
Lemma spill_selectbox_selects f fs lbl st :
  let r := spill_selectbox (f :: fs) lbl st in
  exists s, In s (spill_ids_of (f :: fs)) /\
    snd r = set_selected_spill_id (Some s) st /\
    (forall sid, fst r = Py.Ok sid -> sid = s) /\
    (forall e, fst r = Py.Raise e -> e = Py.ValueError).
Proof.
  intros r. subst r.
  pose proof (spill_selectbox_run f fs lbl st) as H. cbv zeta in H.
  destruct (Py.index (spill_labels_of (f :: fs)) lbl) as [i|].
  - destruct H as (sid & Hn & ->). exists sid.
    split; [by eapply nth_error_In|]. split; [done|].
    split; [by intros ? [= <-] | done].
  - rewrite H. destruct (coerced_In f fs (selected_spill_id st)) as (s & Hs & Hin).
    exists s. rewrite Hs. split; [done|]. split; [done|].
    split; [done | by intros ? [= <-]].
Qed.

(** *** What each block of the script does *)

Lemma change_zone_run z st : change_zone z st = (Py.Ok tt, zone_changed z st).
Proof. reflexivity. Qed.

Lemma sidebar_run opt st :
  sidebar_zone_selection opt st =
    if decide (new_zone_id opt = selected_zone_id st) then (Py.Ok tt, st)
    else (Py.Raise Py.RerunException, zone_changed (new_zone_id opt) st).
Proof.
  unfold sidebar_zone_selection. rewrite bind_run. cbn [get_state].
  destruct (decide _); reflexivity.
Qed.

(** A click either selects the zone it resolves to, or leaves the state
    as it is: quietly, or with the exception that stopped the loop. *)
Lemma map_click_on_run pow clicked st :
  map_click_on pow clicked st =
    match clicked with
    | Some (clat, clon) =>
        match resolve_click_on pow clat clon with
        | Some closest =>
            (Py.Raise Py.RerunException, zone_changed (Some (zone_id closest)) st)
        | None =>
            (match nearest_among pow DANGER_ZONES clat clon with
             | Py.Raise e => Py.Raise e
             | Py.Ok _ => Py.Ok tt
             end, st)
        end
    | None => (Py.Ok tt, st)
    end.
Proof.
  unfold map_click_on, resolve_click_on. destruct clicked as [[clat clon]|]; [|done].
  destruct (nearest_among pow DANGER_ZONES clat clon) as [[m [c|]]|e]; try done.
  destruct (m <? click_threshold)%float; reflexivity.
Qed.

Lemma map_click_run clicked st :
  map_click clicked st =
    match clicked with
    | Some (clat, clon) =>
        match resolve_click clat clon with
        | Some closest =>
            (Py.Raise Py.RerunException, zone_changed (Some (zone_id closest)) st)
        | None =>
            (match nearest_among exact_pow DANGER_ZONES clat clon with
             | Py.Raise e => Py.Raise e
             | Py.Ok _ => Py.Ok tt
             end, st)
        end
    | None => (Py.Ok tt, st)
    end.
Proof. apply map_click_on_run. Qed.

Lemma cleanup_button_run sid clicked st :
  cleanup_button sid clicked st =
    match status_of st sid, clicked with
    | idle, true => (Py.Raise Py.RerunException, set_cleanup_status sid cleaning st)
    | cleaning, true => (Py.Raise Py.RerunException, set_cleanup_status sid done st)
    | _, _ => (Py.Ok tt, st)
    end.
Proof.
  unfold cleanup_button. rewrite bind_run. cbn [get_state].
  destruct (status_of st sid), clicked; reflexivity.
Qed.

Lemma cleanup_control_run lbl clicked st :
  cleanup_control lbl clicked st =
    match zone_features st with
    | [] => (Py.Ok tt, st)
    | fs => (sid <- spill_selectbox fs lbl ;; cleanup_button sid clicked) st
    end.
Proof.
  unfold cleanup_control, zone_features. rewrite bind_run. cbn [get_state].
  destruct (Py.truthy _); [|done].
  by destruct (features _).
Qed.

Lemma chat_turn_run client zm props hist q st :
  chat_turn client zm props hist (Some q) st =
    if String.eqb q "" then (Py.Ok tt, st)
    else match get_ai_response client zm props hist q with
         | Py.Ok a =>
             (Py.Raise Py.RerunException,
              set_chat_messages
                (chat_messages st ++ [user_message q; assistant_message a]) st)
         | Py.Raise e =>
             (Py.Raise e, set_chat_messages (chat_messages st ++ [user_message q]) st)
         end.
Proof.
  unfold chat_turn, Py.truthy. destruct (String.eqb q ""); [done|].
  run. destruct (get_ai_response _ _ _ _ _); cbn; [|done].
  by rewrite <- app_assoc.
Qed.

Lemma assistant_panel_run client lbl q st :
  assistant_panel client lbl q st =
    match zone_features st with
    | [] => (Py.Ok tt, st)
    | fs =>
        let zid := default "" (selected_zone_id st) in
        (sid <- spill_selectbox fs lbl ;;
         sel_feature <- expect
           (find (fun f => String.eqb (spill_id (properties f)) sid) fs)
           Py.StopIteration ;;
         chat_turn client (get_zone_meta zid) (properties sel_feature)
           (get_history_summary zid) q) st
    end.
Proof.
  unfold assistant_panel, zone_features. rewrite bind_run. cbn [get_state].
  destruct (Py.truthy _); [|done].
  by destruct (features _).
Qed.

Lemma find_spill fs s :
  In s (spill_ids_of fs) ->
  exists f, find (fun f => String.eqb (spill_id (properties f)) s) fs = Some f /\
            In f fs /\ spill_id (properties f) = s.
Proof.
  induction fs as [|f fs IH]; cbn; [done|].
  destruct (String.eqb (spill_id (properties f)) s) eqn:E.
  - apply String.eqb_eq in E. eauto.
  - intros [H|H]; [apply String.eqb_neq in E; done|].
    destruct (IH H) as (f' & ? & ? & ?). eauto.
Qed.

(** The zone's features are unaffected by changes to the selected spill,
    the transcript or the cleanup statuses. *)
Lemma zone_features_same st st' :
  selected_zone_id st' = selected_zone_id st -> zone_features st' = zone_features st.
Proof. unfold zone_features. by intros ->. Qed.

(** *** Cleanup statuses *)

Lemma advances_refl a : advances a a.
Proof. by left. Qed.

Lemma same_cleanup_advances st st' : same_cleanup st st' -> cleanup_advances st st'.
Proof. intros H sid. unfold status_of. rewrite H. apply advances_refl. Qed.

Lemma status_of_set sid v st sid' :
  status_of (set_cleanup_status sid v st) sid' =
    if decide (sid = sid') then v else status_of st sid'.
Proof.
  unfold status_of, set_cleanup_status. cbn. rewrite lookup_insert.
  by destruct (decide _).
Qed.

Lemma status_of_same st st' sid :
  same_cleanup st st' -> status_of st' sid = status_of st sid.
Proof. unfold status_of. by intros ->. Qed.

Lemma sidebar_same_cleanup opt : keeps same_cleanup (sidebar_zone_selection opt).
Proof. intros st. rewrite sidebar_run. by destruct (decide _). Qed.

Lemma map_click_same_cleanup clicked : keeps same_cleanup (map_click clicked).
Proof.
  intros st. rewrite map_click_run. destruct clicked as [[??]|]; [|done].
  by destruct (resolve_click _ _).
Qed.

Lemma spill_selectbox_same_cleanup fs lbl : keeps same_cleanup (spill_selectbox fs lbl).
Proof.
  intros st. destruct fs as [|f fs].
  - unfold spill_selectbox, select_spill, coerce_spill. run.
    destruct (Py.contains _ _); cbn; [|done].
    by destruct (selected_spill_id st).
  - destruct (spill_selectbox_selects f fs lbl st) as (s & _ & -> & _). done.
Qed.

Lemma cleanup_button_advances sid clicked : keeps cleanup_advances (cleanup_button sid clicked).
Proof.
  intros st sid'. rewrite cleanup_button_run.
  destruct (status_of st sid) eqn:E, clicked; cbn; try apply advances_refl;
    rewrite status_of_set; destruct (decide _) as [<-|]; try apply advances_refl;
    rewrite E; unfold advances; tauto.
Qed.

Lemma chat_turn_same_cleanup client zm props hist q :
  keeps same_cleanup (chat_turn client zm props hist q).
Proof.
  intros st. destruct q as [q|]; [|done]. rewrite chat_turn_run.
  destruct (String.eqb q ""); [done|]. by destruct (get_ai_response _ _ _ _ _).
Qed.

Lemma same_cleanup_trans a b c : same_cleanup a b -> same_cleanup b c -> same_cleanup a c.
Proof. unfold same_cleanup. congruence. Qed.

Lemma cleanup_control_advances lbl clicked : keeps cleanup_advances (cleanup_control lbl clicked).
Proof.
  intros st. rewrite cleanup_control_run.
  destruct (zone_features st) as [|f fs]; [intros ?; apply advances_refl|].
  revert st. apply (keeps_bind same_cleanup cleanup_advances cleanup_advances).
  - apply same_cleanup_advances.
  - intros a b c Hab Hbc sid. rewrite <- (status_of_same a b) by done. apply Hbc.
  - apply spill_selectbox_same_cleanup.
  - intros sid. apply cleanup_button_advances.
Qed.

Lemma assistant_panel_same_cleanup client lbl q : keeps same_cleanup (assistant_panel client lbl q).
Proof.
  intros st. rewrite assistant_panel_run.
  destruct (zone_features st) as [|f fs]; [done|]. cbv zeta.
  generalize (default "" (selected_zone_id st)). intros zid.
  revert st.
  apply (keeps_bind same_cleanup same_cleanup same_cleanup);
    [auto | apply same_cleanup_trans | apply spill_selectbox_same_cleanup | intros sid].
  apply (keeps_bind same_cleanup same_cleanup same_cleanup);
    [auto | apply same_cleanup_trans | | intros ft; apply chat_turn_same_cleanup].
  intros st. by destruct (find _ _).
Qed.

Lemma script_run_advances client w : keeps cleanup_advances (script_run client w).
Proof.
  unfold script_run, script_run_on. change (map_click_on exact_pow) with map_click.
  apply (keeps_bind same_cleanup cleanup_advances cleanup_advances); [apply same_cleanup_advances | |
    apply sidebar_same_cleanup | intros _].
  { intros a b c Hab Hbc sid. rewrite <- (status_of_same a b) by done. apply Hbc. }
  apply (keeps_bind same_cleanup cleanup_advances cleanup_advances); [apply same_cleanup_advances | |
    apply map_click_same_cleanup | intros _].
  { intros a b c Hab Hbc sid. rewrite <- (status_of_same a b) by done. apply Hbc. }
  apply (keeps_bind cleanup_advances same_cleanup cleanup_advances); [done | |
    apply cleanup_control_advances | intros _; apply assistant_panel_same_cleanup].
  intros a b c Hab Hbc sid. rewrite (status_of_same b c) by done. apply Hab.
Qed.

Lemma init_cleanup_status_eq :
  init_cleanup_status = <["S3" := idle]> (<["S2" := idle]> (<["S1" := idle]> ∅)).
Proof. reflexivity. Qed.

Lemma advances_rank a b : advances a b -> rank a <= rank b <= S (rank a).
Proof. intros [->|[[-> ->]|[-> ->]]]; cbn; lia. Qed.

(** C2: the cleanup status of every spill starts idle and each run of
    the script leaves it where it was or moves it one step along
    idle, cleaning, done; over any session it never moves back. *)
Theorem cleanup_status_one_way (client : Client) (sid : string) :
  status_of initial_state sid = idle /\
  (forall w st,
     advances (status_of st sid) (status_of (after_run client w st) sid)) /\
  (forall ws st,
     rank (status_of st sid) <= rank (status_of (session client ws st) sid)).
Proof.
  split; [|split].
  - unfold status_of, initial_state. cbn [cleanup_status].
    rewrite init_cleanup_status_eq, !lookup_insert.
    repeat destruct (decide _); try done.
  - intros w st. apply script_run_advances.
  - induction ws as [|w ws IH]; intros st; cbn; [lia|].
    specialize (IH (after_run client w st)). unfold session in IH.
    pose proof (advances_rank _ _ (script_run_advances client w st sid)).
    unfold after_run in *. lia.
Qed.

(** *** Zone selection *)

Lemma script_run_sidebar client w st :
  new_zone_id (zone_selectbox w) <> selected_zone_id st ->
  script_run client w st =
    (Py.Raise Py.RerunException, zone_changed (new_zone_id (zone_selectbox w)) st).
Proof.
  intros H. unfold script_run, script_run_on. rewrite bind_run, sidebar_run.
  by destruct (decide _).
Qed.

Lemma script_run_past_sidebar client w st :
  new_zone_id (zone_selectbox w) = selected_zone_id st ->
  script_run client w st =
    (map_click (last_object_clicked w) ;;;
     cleanup_control (cleanup_spill_select w) (cleanup_click w) ;;;
     assistant_panel client (assistant_spill_select w) (chat_input w)) st.
Proof.
  intros H. unfold script_run, script_run_on. rewrite bind_run, sidebar_run.
  by destruct (decide _).
Qed.

Lemma script_run_click client w st clat clon closest :
  new_zone_id (zone_selectbox w) = selected_zone_id st ->
  last_object_clicked w = Some (clat, clon) ->
  resolve_click clat clon = Some closest ->
  script_run client w st =
    (Py.Raise Py.RerunException, zone_changed (Some (zone_id closest)) st).
Proof.
  intros H Hc Hr. rewrite script_run_past_sidebar by done.
  rewrite bind_run, map_click_run, Hc, Hr. done.
Qed.

Lemma known_zone_option zn :
  In zn DANGER_ZONES ->
  In (zone_id zn) zone_options /\ new_zone_id (zone_id zn) = Some (zone_id zn).
Proof.
  intros [<-|[<-|[<-|[]]]]; (split; [cbn; tauto | reflexivity]).
Qed.

Lemma known_zone_click zn :
  In zn DANGER_ZONES -> resolve_click (lat zn) (lon zn) = Some zn.
Proof.
  intros [<-|[<-|[<-|[]]]]; vm_compute; reflexivity.
Qed.

(** C1: selecting a zone [z] (a known zone or none) that differs from
    the selected one stores [z], resets the selected spill to none and
    empties the transcript, through the sidebar dropdown and through a
    map click that resolves to [z]; both paths are available for every
    such [z] (the dropdown offers it, a click on a zone's marker resolves
    to it). *)
Theorem select_zone_resets_selection (client : Client) (st : State) (z : option string) :
  (z = None \/ exists zn, In zn DANGER_ZONES /\ z = Some (zone_id zn)) ->
  z <> selected_zone_id st ->
  let st' := {| selected_zone_id := z; selected_spill_id := None;
                chat_messages := []; cleanup_status := cleanup_status st |} in
  (exists opt, In opt zone_options /\ new_zone_id opt = z) /\
  (forall w, new_zone_id (zone_selectbox w) = z ->
     sidebar_zone_selection (zone_selectbox w) st = (Py.Raise Py.RerunException, st') /\
     script_run client w st = (Py.Raise Py.RerunException, st')) /\
  (forall zn, In zn DANGER_ZONES -> z = Some (zone_id zn) ->
     exists clat clon, resolve_click clat clon = Some zn) /\
  (forall w clat clon zn,
     resolve_click clat clon = Some zn -> z = Some (zone_id zn) ->
     map_click (Some (clat, clon)) st = (Py.Raise Py.RerunException, st') /\
     (new_zone_id (zone_selectbox w) = selected_zone_id st ->
      last_object_clicked w = Some (clat, clon) ->
      script_run client w st = (Py.Raise Py.RerunException, st'))).
Proof.
  intros Hz Hne st'. repeat split.
  - destruct Hz as [->|(zn & Hin & ->)].
    + exists "None". split; [cbn; tauto | reflexivity].
    + exists (zone_id zn). by apply known_zone_option.
  - subst z. rewrite sidebar_run. by destruct (decide _).
  - subst z. by rewrite script_run_sidebar.
  - intros zn Hin _. exists (lat zn), (lon zn). by apply known_zone_click.
  - rewrite map_click_run, H. by subst z.
  - intros Hs Hc. rewrite (script_run_click client w st clat clon zn) by done.
    by subst z.
Qed.

(** Z1 and its spill S1 are selected and the transcript holds a question
    and its answer (the state a session reaches by selecting Z1 and asking
    about S1).  Choosing Z2 in the dropdown, and clicking the marker of Z2
    with the dropdown left on Z1, both leave Z2 selected, no spill
    selected and the transcript empty. *)
Lemma select_zone_resets_selection_witness :
  session (Some failing_service) [widgets_idle "Z1"; ask_about_s1] initial_state =
    z1_asked /\
  let st' := {| selected_zone_id := Some "Z2"; selected_spill_id := None;
                chat_messages := []; cleanup_status := init_cleanup_status |} in
  script_run None (widgets_idle "Z2") z1_asked = (Py.Raise Py.RerunException, st') /\
  map_click (Some (40.05, 49.9)%float) z1_asked = (Py.Raise Py.RerunException, st') /\
  script_run None (click_at "Z1" 40.05 49.9) z1_asked =
    (Py.Raise Py.RerunException, st').
Proof.
  assert (Hz : Some "Z2" = None \/
               exists zn, In zn DANGER_ZONES /\ Some "Z2" = Some (zone_id zn)).
  { right.
    exists {| zone_id := "Z2"; lat := 40.05; lon := 49.9; scene_id := "SCENARIO_001" |}.
    split; [cbn; tauto | reflexivity]. }
  assert (Hne : Some "Z2" <> selected_zone_id z1_asked) by discriminate.
  assert (Hr : resolve_click 40.05 49.9 =
               Some {| zone_id := "Z2"; lat := 40.05; lon := 49.9;
                       scene_id := "SCENARIO_001" |}) by (vm_compute; reflexivity).
  pose proof (select_zone_resets_selection None z1_asked (Some "Z2") Hz Hne) as H.
  cbv zeta in H. destruct H as (_ & Hdrop & _ & Hclick).
  split; [vm_compute; reflexivity|]. cbv zeta. split; [|split].
  - exact (proj2 (Hdrop (widgets_idle "Z2") eq_refl)).
  - exact (proj1 (Hclick (click_at "Z1" 40.05 49.9) _ _ _ Hr eq_refl)).
  - exact (proj2 (Hclick (click_at "Z1" 40.05 49.9) _ _ _ Hr eq_refl) eq_refl eq_refl).
Defined.

(** *** Cleanup button *)

(** C3 (as stated, refuted): S1 is idle, the button is pressed for it
    twice; after the first press S1 is cleaning, and the second press is
    not rejected: it moves S1 from cleaning to done. *)
Lemma second_dispatch_completes_cleanup :
  let st1 := after_run None press_cleanup_s1 z1_selected in
  let st2 := after_run None press_cleanup_s1 st1 in
  selected_spill_id st1 = Some "S1" /\
  status_of st1 "S1" = cleaning /\
  status_of st2 "S1" = done /\
  status_of st2 "S1" <> status_of st1 "S1".
Proof. vm_compute. repeat split; discriminate. Qed.

(** C3 (amended): pressing the cleanup button for a spill that is done
    changes nothing (the button is disabled); pressing it for a spill
    that is cleaning completes the cleanup: that spill becomes done, no
    other status and nothing else in the state changes.  Two presses for
    the idle spill S1 leave it done. *)
Theorem cleanup_press_after_dispatch (sid : string) (st : State) :
  (status_of st sid = done ->
     forall clicked, cleanup_button sid clicked st = (Py.Ok tt, st)) /\
  (status_of st sid = cleaning ->
     let st' := set_cleanup_status sid done st in
     cleanup_button sid true st = (Py.Raise Py.RerunException, st') /\
     status_of st' sid = done /\
     (forall other, other <> sid -> status_of st' other = status_of st other) /\
     selected_zone_id st' = selected_zone_id st /\
     selected_spill_id st' = selected_spill_id st /\
     chat_messages st' = chat_messages st) /\
  status_of (session None [press_cleanup_s1; press_cleanup_s1] z1_selected) "S1" = done.
Proof.
  split; [|split].
  - intros H clicked. rewrite cleanup_button_run, H. done.
  - intros H st'. rewrite cleanup_button_run, H. subst st'.
    repeat split; try done.
    + rewrite status_of_set. by destruct (decide _).
    + intros other Hne. rewrite status_of_set. by destruct (decide _).
  - vm_compute. reflexivity.
Qed.

Lemma cleanup_press_after_dispatch_witness :
  let st := after_run None press_cleanup_s1 z1_selected in
  status_of st "S1" = cleaning /\
  cleanup_button "S1" true st =
    (Py.Raise Py.RerunException, set_cleanup_status "S1" done st).
Proof.
  cbv zeta. split; [vm_compute; reflexivity|].
  apply (cleanup_press_after_dispatch "S1"). vm_compute. reflexivity.
Defined.

(** *** Spill selection *)

Lemma zone_features_set_spill s st :
  zone_features (set_selected_spill_id s st) = zone_features st.
Proof. reflexivity. Qed.

(** With a zone that has spills selected, the cleanup block always leaves
    one of that zone's spills selected, whatever the widgets return. *)
Lemma cleanup_control_selects lbl clicked st :
  zone_features st <> [] ->
  let st' := snd (cleanup_control lbl clicked st) in
  exists s, In s (zone_spill_ids st) /\
    selected_zone_id st' = selected_zone_id st /\
    selected_spill_id st' = Some s /\
    chat_messages st' = chat_messages st.
Proof.
  intros Hne st'. subst st'. rewrite cleanup_control_run.
  unfold zone_spill_ids. destruct (zone_features st) as [|f fs]; [done|].
  rewrite bind_run.
  destruct (spill_selectbox_selects f fs lbl st) as (s & Hin & Hst & Hok & _).
  exists s. split; [done|].
  destruct (spill_selectbox (f :: fs) lbl st) as [[sid|e] st1]; cbn [fst snd] in *;
    subst st1; [|done].
  rewrite cleanup_button_run.
  by destruct (status_of _ sid), clicked.
Qed.

Lemma assistant_panel_selects client lbl q st :
  zone_features st <> [] ->
  let st' := snd (assistant_panel client lbl q st) in
  exists s, In s (zone_spill_ids st) /\
    selected_zone_id st' = selected_zone_id st /\
    selected_spill_id st' = Some s.
Proof.
  intros Hne st'. subst st'. rewrite assistant_panel_run.
  unfold zone_spill_ids. destruct (zone_features st) as [|f fs]; [done|].
  cbv zeta. rewrite bind_run.
  destruct (spill_selectbox_selects f fs lbl st) as (s & Hin & Hst & Hok & _).
  exists s. split; [done|].
  destruct (spill_selectbox (f :: fs) lbl st) as [[sid|e] st1]; cbn [fst snd] in *;
    subst st1; [|done].
  rewrite bind_run. destruct (find _ _) as [ft|]; cbn [expect ret raise]; [|done].
  destruct q as [q|]; [|done]. rewrite chat_turn_run.
  destruct (String.eqb q ""); [done|].
  by destruct (get_ai_response _ _ _ _ _).
Qed.

Lemma cleanup_control_no_zone lbl clicked st :
  zone_features st = [] -> cleanup_control lbl clicked st = (Py.Ok tt, st).
Proof. intros H. by rewrite cleanup_control_run, H. Qed.

Lemma assistant_panel_no_zone client lbl q st :
  zone_features st = [] -> assistant_panel client lbl q st = (Py.Ok tt, st).
Proof. intros H. by rewrite assistant_panel_run, H. Qed.

(** Every zone of the scenario has at most one spill. *)
Lemma zone_features_single st :
  zone_features st = [] \/ exists f, zone_features st = [f].
Proof.
  unfold zone_features. destruct (Py.truthy _); [|by left].
  destruct (features_cases (default "" (selected_zone_id st)))
    as [[-> | [-> | ->]] | ->]; [right; eexists; reflexivity..|by left].
Qed.

(** Choosing the (only) label offered stores its spill. *)
Lemma spill_selectbox_choose f st :
  spill_selectbox [f] (spill_label (properties f)) st =
    (Py.Ok (spill_id (properties f)),
     set_selected_spill_id (Some (spill_id (properties f))) st).
Proof.
  pose proof (spill_selectbox_run f [] (spill_label (properties f)) st) as H.
  cbn [spill_labels_of spill_ids_of map Py.index] in H.
  rewrite String.eqb_refl in H. destruct H as (sid & Hn & ->).
  cbn in Hn. by injection Hn as <-.
Qed.





(** *** The selection invariant *)

Lemma valid_zone_changed z st : valid_selection (zone_changed z st).
Proof. intros s. discriminate. Qed.

Lemma sidebar_valid opt : keeps keeps_valid (sidebar_zone_selection opt).
Proof.
  intros st Hv. rewrite sidebar_run.
  destruct (decide _); [done | apply valid_zone_changed].
Qed.

Lemma map_click_valid clicked : keeps keeps_valid (map_click clicked).
Proof.
  intros st Hv. rewrite map_click_run. destruct clicked as [[??]|]; [|done].
  destruct (resolve_click _ _); [apply valid_zone_changed | done].
Qed.

Lemma valid_of_selected st st' s :
  In s (zone_spill_ids st) ->
  selected_zone_id st' = selected_zone_id st ->
  selected_spill_id st' = Some s ->
  valid_selection st'.
Proof.
  intros Hin Hz Hs s' Hs'. rewrite Hs in Hs'. injection Hs' as <-.
  unfold zone_spill_ids. by rewrite (zone_features_same st st').
Qed.

Lemma cleanup_control_valid lbl clicked : keeps keeps_valid (cleanup_control lbl clicked).
Proof.
  intros st Hv. destruct (zone_features st) as [|f fs] eqn:E.
  - by rewrite cleanup_control_no_zone.
  - destruct (cleanup_control_selects lbl clicked st) as (s & ? & ? & ? & _);
      [by rewrite E|]. by eapply valid_of_selected.
Qed.

Lemma assistant_panel_valid client lbl q : keeps keeps_valid (assistant_panel client lbl q).
Proof.
  intros st Hv. destruct (zone_features st) as [|f fs] eqn:E.
  - by rewrite assistant_panel_no_zone.
  - destruct (assistant_panel_selects client lbl q st) as (s & ? & ? & ?);
      [by rewrite E|]. by eapply valid_of_selected.
Qed.

Lemma keeps_valid_trans a b c : keeps_valid a b -> keeps_valid b c -> keeps_valid a c.
Proof. unfold keeps_valid. auto. Qed.

Lemma script_run_valid client w : keeps keeps_valid (script_run client w).
Proof.
  unfold script_run, script_run_on. change (map_click_on exact_pow) with map_click.
  repeat (apply (keeps_bind keeps_valid keeps_valid keeps_valid);
          [auto | apply keeps_valid_trans | | intros _]).
  - apply sidebar_valid.
  - apply map_click_valid.
  - apply cleanup_control_valid.
  - apply assistant_panel_valid.
Qed.

(** C9: in every state a session can reach, a selected spill belongs to
    the spill set of the selected zone (so a zone is selected); each block
    of the script (zone dropdown, map click, cleanup control with its
    spill selectbox and button, assistant panel with its spill selectbox
    and chat turn) and hence each run preserves this. *)
Theorem selection_invariant (st : State) :
  reachable st ->
  (forall s, selected_spill_id st = Some s ->
     exists z, selected_zone_id st = Some z /\
               In s (spill_ids_of (features (get_spill_geojson z)))) /\
  (forall client w,
     valid_selection (snd (sidebar_zone_selection (zone_selectbox w) st)) /\
     valid_selection (snd (map_click (last_object_clicked w) st)) /\
     valid_selection
       (snd (cleanup_control (cleanup_spill_select w) (cleanup_click w) st)) /\
     valid_selection
       (snd (assistant_panel client (assistant_spill_select w) (chat_input w) st)) /\
     valid_selection (after_run client w st)).
Proof.
  intros Hr.
  assert (Hv : valid_selection st).
  { induction Hr as [|client w st Hr IH]; [intros s; discriminate|].
    by apply script_run_valid. }
  split.
  - intros s Hs. specialize (Hv s Hs).
    unfold zone_spill_ids, zone_features in Hv.
    destruct (selected_zone_id st) as [z|]; [|done].
    exists z. split; [done|]. by destruct (Py.truthy (Some z)).
  - intros client w. repeat split.
    + by apply sidebar_valid.
    + by apply map_click_valid.
    + by apply cleanup_control_valid.
    + by apply assistant_panel_valid.
    + by apply script_run_valid.
Qed.

Lemma selection_invariant_witness :
  let st := session None [widgets_idle "Z1"; press_cleanup_s1] initial_state in
  selected_spill_id st = Some "S1" /\
  exists z, selected_zone_id st = Some z /\
            In "S1" (spill_ids_of (features (get_spill_geojson z))).
Proof.
  intros st.
  assert (Hs : selected_spill_id st = Some "S1") by (vm_compute; reflexivity).
  assert (Hr : reachable st).
  { subst st. unfold session. cbn [fold_left].
    do 2 apply reachable_run. apply reachable_initial. }
  split; [exact Hs|].
  exact (proj1 (selection_invariant st Hr) "S1" Hs).
Defined.

(** C10: with a zone that has at least one spill selected, lines 552-553
    and 626-627 replace a selected spill id that is none or not one of
    the zone's spills by the zone's first spill and keep one that is; so
    after the cleanup control, after the assistant panel and after every
    run that gets past the two zone handlers (the runs that display the
    zone's controls) a spill of the zone is selected, never none. *)
Theorem spill_selection_coerced (st : State) (f : Feature) (fs : list Feature) :
  zone_features st = f :: fs ->
  let ids := zone_spill_ids st in
  let first := spill_id (properties f) in
  coerce_spill ids st =
    (Py.Ok tt,
     if Py.contains ids (selected_spill_id st) then st
     else set_selected_spill_id (Some first) st) /\
  (selected_spill_id st = None ->
     coerce_spill ids st = (Py.Ok tt, set_selected_spill_id (Some first) st)) /\
  (forall lbl clicked,
     exists s, In s ids /\
       selected_spill_id (snd (cleanup_control lbl clicked st)) = Some s) /\
  (forall client lbl q,
     exists s, In s ids /\
       selected_spill_id (snd (assistant_panel client lbl q st)) = Some s) /\
  (forall client w,
     sidebar_zone_selection (zone_selectbox w) st = (Py.Ok tt, st) ->
     map_click (last_object_clicked w) st = (Py.Ok tt, st) ->
     exists s, In s ids /\ selected_spill_id (after_run client w st) = Some s).
Proof.
  intros E ids first.
  assert (Hne : zone_features st <> []) by (by rewrite E).
  assert (Hids : ids = spill_ids_of (f :: fs)) by (unfold ids, zone_spill_ids; by rewrite E).
  assert (Hc : coerce_spill ids st =
    (Py.Ok tt, if Py.contains ids (selected_spill_id st) then st
               else set_selected_spill_id (Some first) st)).
  { rewrite Hids, coerce_spill_run. unfold coerced.
    destruct (Py.contains _ _); [by rewrite set_spill_same | done]. }
  split; [done|]. split; [|split; [|split]].
  - intros Hnone. rewrite Hc, Hnone. done.
  - intros lbl clicked.
    destruct (cleanup_control_selects lbl clicked st Hne) as (s & ? & _ & ? & _).
    eauto.
  - intros client lbl q.
    destruct (assistant_panel_selects client lbl q st Hne) as (s & ? & _ & ?).
    eauto.
  - intros client w Hs Hm. unfold after_run, script_run, script_run_on.
    change (map_click_on exact_pow) with map_click.
    rewrite bind_run, Hs, bind_run, Hm, bind_run.
    destruct (cleanup_control_selects (cleanup_spill_select w) (cleanup_click w) st Hne)
      as (s & Hin & Hz & Hsel & _).
    destruct (cleanup_control _ _ st) as [[[]|e] st1]; cbn [snd] in *; [|eauto].
    assert (Hne1 : zone_features st1 <> []) by (by rewrite (zone_features_same st st1)).
    destruct (assistant_panel_selects client (assistant_spill_select w) (chat_input w)
                st1 Hne1) as (s' & Hin' & _ & Hsel').
    exists s'. split; [|done].
    unfold ids, zone_spill_ids. by rewrite <- (zone_features_same st st1).
Qed.

Lemma spill_selection_coerced_witness :
  let st := zone_changed (Some "Z2") initial_state in
  exists s, In s (zone_spill_ids st) /\
    selected_spill_id (after_run None (widgets_idle "Z2") st) = Some s.
Proof.
  intros st.
  assert (Hs : sidebar_zone_selection (zone_selectbox (widgets_idle "Z2")) st =
               (Py.Ok tt, st)) by reflexivity.
  assert (Hm : map_click (last_object_clicked (widgets_idle "Z2")) st =
               (Py.Ok tt, st)) by reflexivity.
  destruct (zone_features_single st) as [E|[f E]].
  - exfalso. revert E. vm_compute. discriminate.
  - exact (proj2 (proj2 (proj2 (proj2 (spill_selection_coerced st f [] E))))
             None (widgets_idle "Z2") Hs Hm).
Defined.

(** *** Assistant gateway and chat turns *)

Lemma get_ai_response_known_zone client zm props hist q :
  exists answer, get_ai_response client (Some zm) props hist q = Py.Ok answer.
Proof.
  unfold get_ai_response. destruct client as [create|]; [|eauto].
  destruct (create _) as [[|text ?]|e]; eauto.
Qed.

(** C7 (the code where it breaks the claim): for a completion whose
    first choice has no content the gateway returns [None], not a string,
    and the chat turn stores it as the assistant's entry.  This is the
    only such case: with no client the value is the missing-key text,
    when the call raises or the completion has no choice it is the marked
    error text, otherwise it is the content of the first choice; for a
    known zone no exception leaves the gateway. *)
Theorem gateway_returns_none_for_empty_content (zm : Zone) (props : Props)
    (hist q : string) :
  get_ai_response (Some empty_content_service) (Some zm) props hist q = Py.Ok None /\
  chat_messages (after_run (Some empty_content_service) ask_about_s1 z1_selected) =
    [user_message "Why?"; assistant_message None] /\
  (forall client : Client,
     get_ai_response client (Some zm) props hist q =
       match client with
       | None => Py.Ok (Some no_key_text)
       | Some create =>
           match create (chat_request zm props hist q) with
           | Failure e => Py.Ok (Some (error_prefix +:+ e))
           | Completion [] =>
               Py.Ok (Some (error_prefix +:+ "list index out of range"))
           | Completion (content :: _) => Py.Ok content
           end
       end) /\
  (forall client : Client,
     get_ai_response client (Some zm) props hist q = Py.Ok None <->
     exists create others,
       client = Some create /\
       create (chat_request zm props hist q) = Completion (None :: others)).
Proof.
  split; [reflexivity|]. split; [vm_compute; reflexivity|]. split.
  - intros [create|]; [|reflexivity]. cbn.
    by destruct (create _) as [[|content ?]|e].
  - intros client. split.
    + destruct client as [create|]; [|discriminate]. cbn.
      destruct (create _) as [[|[text|] others]|e] eqn:E; try discriminate.
      intros _. by exists create, others.
    + intros (create & others & -> & E). cbn. by rewrite E.
Qed.

Lemma zone_features_truthy st f fs :
  zone_features st = f :: fs ->
  features (get_spill_geojson (default "" (selected_zone_id st))) = f :: fs.
Proof. unfold zone_features. by destruct (Py.truthy _). Qed.

Lemma spill_selectbox_offered f fs lbl st :
  In lbl (spill_labels_of (f :: fs)) ->
  exists sid, In sid (spill_ids_of (f :: fs)) /\
    spill_selectbox (f :: fs) lbl st =
      (Py.Ok sid, set_selected_spill_id (Some sid) st).
Proof.
  intros Hin. destruct (index_of_In _ _ Hin) as [i Hi].
  pose proof (spill_selectbox_run f fs lbl st) as H. cbv zeta in H.
  rewrite Hi in H. destruct H as (sid & Hn & ->).
  exists sid. split; [by eapply nth_error_In | done].
Qed.

(** The assistant panel when the selectbox returns one of its labels and
    a question is submitted. *)
Lemma assistant_panel_turn client lbl q st :
  In lbl (zone_spill_labels st) -> q <> "" ->
  exists sid answer,
    In sid (zone_spill_ids st) /\
    assistant_panel client lbl (Some q) st =
      (Py.Raise Py.RerunException,
       set_chat_messages
         (chat_messages st ++ [user_message q; assistant_message answer])
         (set_selected_spill_id (Some sid) st)).
Proof.
  intros Hin Hq. unfold zone_spill_labels, zone_spill_ids in *.
  rewrite assistant_panel_run.
  destruct (zone_features st) as [|f fs] eqn:E; [done|]. cbv zeta.
  destruct (spill_selectbox_offered f fs lbl st Hin) as (sid & Hsid & Hrun).
  rewrite bind_run, Hrun, bind_run.
  destruct (find_spill _ _ Hsid) as (ft & -> & _ & _). cbn [expect ret].
  rewrite chat_turn_run.
  destruct (String.eqb_spec q ""); [done|].
  destruct (known_zone_meta (default "" (selected_zone_id st))) as [zm ->].
  { by rewrite (zone_features_truthy st f fs). }
  destruct (get_ai_response_known_zone client zm (properties ft)
              (get_history_summary (default "" (selected_zone_id st))) q)
    as [answer ->].
  exists sid, answer. done.
Qed.

(** C8: a chat turn (a zone with spills is selected, the selectboxes
    return labels they offer, a non-empty question is submitted) appends
    exactly two entries to the transcript: the user's question, then an
    assistant entry holding what the gateway returned, whether the
    answer or a fallback text; the gateway never fails in a way that
    leaves the user entry alone.  This holds for the chat block alone,
    for the assistant panel and for a whole run of the script. *)
Theorem chat_turn_appends_pair (client : Client) (st : State) (q : string) :
  q <> "" ->
  (forall zm props hist,
     exists answer,
       get_ai_response client (Some zm) props hist q = Py.Ok answer /\
       chat_turn client (Some zm) props hist (Some q) st =
         (Py.Raise Py.RerunException,
          set_chat_messages
            (chat_messages st ++ [user_message q; assistant_message answer]) st)) /\
  (forall lbl, In lbl (zone_spill_labels st) ->
     exists answer,
       chat_messages (snd (assistant_panel client lbl (Some q) st)) =
         chat_messages st ++ [user_message q; assistant_message answer]) /\
  (forall w,
     new_zone_id (zone_selectbox w) = selected_zone_id st ->
     last_object_clicked w = None ->
     In (cleanup_spill_select w) (zone_spill_labels st) ->
     cleanup_click w = false ->
     In (assistant_spill_select w) (zone_spill_labels st) ->
     chat_input w = Some q ->
     exists answer,
       fst (script_run client w st) = Py.Raise Py.RerunException /\
       chat_messages (after_run client w st) =
         chat_messages st ++ [user_message q; assistant_message answer]).
Proof.
  intros Hq. split; [|split].
  - intros zm props hist.
    destruct (get_ai_response_known_zone client zm props hist q) as [answer Ha].
    exists answer. split; [done|]. rewrite chat_turn_run, Ha.
    by destruct (String.eqb_spec q "").
  - intros lbl Hin.
    destruct (assistant_panel_turn client lbl q st Hin Hq) as (sid & answer & _ & ->).
    by exists answer.
  - intros w Hz Hc Hl1 Hb Hl2 Hi. unfold after_run.
    rewrite script_run_past_sidebar by done.
    rewrite bind_run, map_click_run, Hc, bind_run, cleanup_control_run.
    unfold zone_spill_labels in Hl1.
    destruct (zone_features st) as [|f fs] eqn:E; [done|].
    destruct (spill_selectbox_offered f fs _ st Hl1) as (sid & Hsid & Hrun).
    rewrite bind_run, Hrun, cleanup_button_run, Hb, Hi.
    set (st1 := set_selected_spill_id (Some sid) st).
    replace (match status_of st1 sid with
             | idle | _ => (Py.Ok (), st1) end) with (Py.Ok (), st1)
      by (by destruct (status_of st1 sid)).
    destruct (assistant_panel_turn client (assistant_spill_select w) q st1)
      as (sid' & answer & _ & ->); [done..|].
    by exists answer.
Qed.

Lemma chat_turn_appends_pair_witness :
  exists answer,
    fst (script_run (Some failing_service) ask_about_s1 z1_selected) =
      Py.Raise Py.RerunException /\
    chat_messages (after_run (Some failing_service) ask_about_s1 z1_selected) =
      chat_messages z1_selected ++ [user_message "Why?"; assistant_message answer].
Proof.
  assert (Hq : "Why?" <> "") by discriminate.
  assert (Hl : In "S1 | thick | 2.5 km²" (zone_spill_labels z1_selected))
    by (vm_compute; tauto).
  exact (proj2 (proj2 (chat_turn_appends_pair (Some failing_service) z1_selected
                         "Why?" Hq))
           ask_about_s1 eq_refl eq_refl Hl eq_refl Hl eq_refl).
Defined.

(** *** History summary *)

Lemma history_keys z :
  z = "Z1" \/ z = "Z2" \/ z = "Z3" \/ HISTORY_DATA !! z = None.
Proof.
  destruct (decide (z = "Z1")) as [|n1]; [tauto|].
  destruct (decide (z = "Z2")) as [|n2]; [tauto|].
  destruct (decide (z = "Z3")) as [|n3]; [tauto|].
  do 3 right. unfold HISTORY_DATA.
  rewrite !lookup_insert_ne by congruence. apply lookup_empty.
Qed.

Lemma history_reported z first rest :
  default [] (HISTORY_DATA !! z) = first :: rest ->
  reports (first :: rest) (history_sentence first rest).
Proof.
  intros E.
  exists (py_max_by float_gt id (ev_area_km2 first) (map ev_area_km2 rest)),
         (py_max_by str_gt ev_date first rest).
  destruct (history_keys z) as [-> | [-> | [-> | H]]];
    [| | | by rewrite H in E];
    vm_compute in E; injection E as <- <-;
    (split; [vm_compute; tauto|]);
    (split; [repeat (constructor; [vm_compute; reflexivity|]); constructor|]);
    (split; [vm_compute; tauto|]);
    (split; [repeat (constructor; [vm_compute; reflexivity|]); constructor|]);
    reflexivity.
Qed.

(** C6: the summary depends on the zone id alone: the fixed no-history
    sentence when the zone has no events, otherwise the sentence made of
    the event count, the sum of the areas, the largest area and the date
    and area of an event whose date string no other exceeds, the three
    areas printed with one decimal; for Z1 it reads 3 events, 5.1, 2.2
    and 2024-01-03 with 1.1. *)
Theorem history_summary_spec (z : string) :
  let events := default [] (HISTORY_DATA !! z) in
  (events = [] -> get_history_summary z = no_history_text) /\
  (events <> [] -> reports events (get_history_summary z)) /\
  get_history_summary "Z1" =
    "This zone has 3 historical spills, total affected area ~5.1 km². Largest historical spill ~2.2 km². Most recent spill on 2024-01-03 with area ~1.1 km²." /\
  get_history_summary "Z1" =
    summary_text 3 5.1 2.2
      {| ev_date := "2024-01-03"; ev_area_km2 := 1.1; ev_spill_id := "H3" |}.
Proof.
  intros events. subst events. unfold get_history_summary.
  split; [|split; [|split]].
  - by intros ->.
  - intros Hne. destruct (default [] (HISTORY_DATA !! z)) as [|first rest] eqn:E; [done|].
    by apply (history_reported z).
  - vm_compute. reflexivity.
  - vm_compute. reflexivity.
Qed.

Lemma history_summary_spec_witness :
  reports (default [] (HISTORY_DATA !! "Z3")) (get_history_summary "Z3") /\
  get_history_summary "Z9" = no_history_text.
Proof.
  split.
  - apply (history_summary_spec "Z3"). vm_compute. discriminate.
  - apply (history_summary_spec "Z9"). reflexivity.
Defined.

(** *** Order of doubles *)

Module FloatOrder.

Ltac cmp_cases :=
  repeat match goal with
  | H : context [Z.compare ?a ?b] |- _ => destruct (Z.compare_spec a b); subst
  | |- context [Z.compare ?a ?b] => destruct (Z.compare_spec a b); subst
  | H : context [Pos.compare_cont Eq ?a ?b] |- _ =>
      change (Pos.compare_cont Eq a b) with (Pos.compare a b) in H
  | |- context [Pos.compare_cont Eq ?a ?b] =>
      change (Pos.compare_cont Eq a b) with (Pos.compare a b)
  | H : context [Pos.compare ?a ?b] |- _ => destruct (Pos.compare_spec a b); subst
  | |- context [Pos.compare ?a ?b] => destruct (Pos.compare_spec a b); subst
  end.

Ltac sf_cases x := destruct x as [[|]|[|]| |[|] ? ?].

Lemma SFcompare_lt_trans x y z :
  SFcompare x y = Some Lt -> SFcompare y z = Some Lt -> SFcompare x z = Some Lt.
Proof.
  sf_cases x; sf_cases y; sf_cases z; cbn; try congruence;
    intros H1 H2; cmp_cases; cbn in *; try congruence; try lia.
Qed.

Lemma SFcompare_eq_l x y z c :
  SFcompare x y = Some Eq -> SFcompare y z = Some c -> SFcompare x z = Some c.
Proof.
  sf_cases x; sf_cases y; sf_cases z; cbn; try congruence;
    intros H1 H2; cmp_cases; cbn in *; try congruence; try lia.
Qed.

Lemma SFcompare_eq_r x y z c :
  SFcompare x y = Some c -> SFcompare y z = Some Eq -> SFcompare x z = Some c.
Proof.
  sf_cases x; sf_cases y; sf_cases z; cbn; try congruence;
    intros H1 H2; cmp_cases; cbn in *; try congruence; try lia.
Qed.

Lemma SFcompare_flip x y c :
  SFcompare x y = Some c -> SFcompare y x = Some (CompOpp c).
Proof.
  sf_cases x; sf_cases y; cbn; try congruence;
    intros H1; cmp_cases; cbn in *;
    try (injection H1 as <-; cbn); try congruence; try lia.
Qed.

Lemma SFcompare_defined x y :
  x <> S754_nan -> y <> S754_nan -> exists c, SFcompare x y = Some c.
Proof. sf_cases x; sf_cases y; cbn; intros; try congruence; eauto. Qed.

Lemma SFcompare_numbers x y c :
  SFcompare x y = Some c -> x <> S754_nan /\ y <> S754_nan.
Proof. sf_cases x; sf_cases y; cbn; intros; split; congruence. Qed.

Lemma SFcompare_refl x : x <> S754_nan -> SFcompare x x = Some Eq.
Proof.
  sf_cases x; cbn; try congruence; intros _;
    rewrite Z.compare_refl;
    change (Pos.compare_cont Eq ?a ?b) with (Pos.compare a b);
    by rewrite Pos.compare_refl.
Qed.

Lemma ltb_lt a b :
  (a <? b)%float = true <-> SFcompare (Prim2SF a) (Prim2SF b) = Some Lt.
Proof.
  rewrite FloatAxioms.ltb_spec. unfold SFltb.
  destruct (SFcompare _ _) as [[| |]|]; split; congruence.
Qed.

Lemma leb_le a b :
  (a <=? b)%float = true <->
  SFcompare (Prim2SF a) (Prim2SF b) = Some Lt \/
  SFcompare (Prim2SF a) (Prim2SF b) = Some Eq.
Proof.
  rewrite FloatAxioms.leb_spec. unfold SFleb.
  destruct (SFcompare _ _) as [[| |]|]; split; try tauto; try congruence;
    intros [?|?]; congruence.
Qed.

Lemma is_nan_number a : is_nan a = false <-> number a.
Proof.
  unfold is_nan, number. rewrite negb_false_iff, FloatAxioms.eqb_spec. unfold SFeqb. split.
  - intros H E. rewrite E in H. discriminate.
  - intros H. by rewrite SFcompare_refl.
Qed.

Lemma ltb_trans a b c :
  (a <? b)%float = true -> (b <? c)%float = true -> (a <? c)%float = true.
Proof. rewrite !ltb_lt. apply SFcompare_lt_trans. Qed.

Lemma leb_ltb_trans a b c :
  (a <=? b)%float = true -> (b <? c)%float = true -> (a <? c)%float = true.
Proof.
  rewrite leb_le, !ltb_lt. intros [H|H] H'.
  - by eapply SFcompare_lt_trans.
  - by eapply SFcompare_eq_l.
Qed.

Lemma ltb_leb_trans a b c :
  (a <? b)%float = true -> (b <=? c)%float = true -> (a <? c)%float = true.
Proof.
  rewrite leb_le, !ltb_lt. intros H [H'|H'].
  - by eapply SFcompare_lt_trans.
  - by eapply SFcompare_eq_r.
Qed.

Lemma ltb_leb a b : (a <? b)%float = true -> (a <=? b)%float = true.
Proof. rewrite ltb_lt, leb_le. tauto. Qed.

Lemma ltb_irrefl a : (a <? a)%float = false.
Proof.
  destruct (a <? a)%float eqn:E; [|done]. apply ltb_lt in E.
  destruct (SFcompare_numbers _ _ _ E) as [Hn _].
  rewrite (SFcompare_refl _ Hn) in E. discriminate.
Qed.

Lemma ltb_number a b : (a <? b)%float = true -> number a /\ number b.
Proof. rewrite ltb_lt. apply SFcompare_numbers. Qed.

Lemma leb_not_ltb a b : (a <=? b)%float = true -> (b <? a)%float = false.
Proof.
  intros H. destruct (b <? a)%float eqn:E; [|done].
  pose proof (leb_ltb_trans _ _ _ H E) as H'. by rewrite ltb_irrefl in H'.
Qed.

(** Two numbers are comparable. *)
Lemma not_ltb_leb a b :
  number a -> number b -> (a <? b)%float = false -> (b <=? a)%float = true.
Proof.
  intros Ha Hb H. destruct (SFcompare_defined _ _ Ha Hb) as [c Hc].
  apply leb_le. rewrite (SFcompare_flip _ _ _ Hc).
  destruct c; cbn; [tauto | | tauto].
  apply ltb_lt in Hc. congruence.
Qed.

Lemma not_leb_ltb a b :
  number a -> number b -> (a <=? b)%float = false -> (b <? a)%float = true.
Proof.
  intros Ha Hb H. destruct (SFcompare_defined _ _ Ha Hb) as [c Hc].
  apply ltb_lt. rewrite (SFcompare_flip _ _ _ Hc).
  destruct c; cbn; [| | done].
  - assert ((a <=? b)%float = true) by (apply leb_le; tauto). congruence.
  - assert ((a <=? b)%float = true) by (apply leb_le; tauto). congruence.
Qed.

End FloatOrder.

(** *** Click resolution *)

Section NearestZone.

Variable pow : Py.LibmPow.
Variables clat clon : float.

(** The powers raise nothing but [OverflowError]. *)
Lemma libm_pow_raises x y e :
  Py.libm_pow pow x y = Py.Raise e -> e = Py.OverflowError.
Proof.
  unfold Py.libm_pow. destruct (pow x y) as [ix erange].
  destruct (if erange then _ else _); congruence.
Qed.

Lemma pow_2_raises x e : Py.pow_2 pow x = Py.Raise e -> e = Py.OverflowError.
Proof.
  unfold Py.pow_2.
  repeat match goal with |- context [if ?c then Py.Ok _ else _] => destruct c end;
    try discriminate; apply libm_pow_raises.
Qed.

Lemma pow_half_raises x e : Py.pow_half pow x = Py.Raise e -> e = Py.OverflowError.
Proof.
  unfold Py.pow_half.
  repeat match goal with |- context [if ?c then Py.Ok _ else _] => destruct c end;
    try discriminate.
  destruct (Py.libm_pow pow x 0.5) as [ix|e'] eqn:E; [discriminate|].
  intros [= <-]. by eapply libm_pow_raises.
Qed.

Lemma click_distance_raises zone e :
  click_distance pow clat clon zone = Py.Raise e -> e = Py.OverflowError.
Proof.
  unfold click_distance.
  destruct (Py.pow_2 pow (lat zone - clat)) as [a|e1] eqn:E1;
    [|intros [= <-]; by eapply pow_2_raises].
  destruct (Py.pow_2 pow (lon zone - clon)) as [b|e2] eqn:E2;
    [|intros [= <-]; by eapply pow_2_raises].
  apply pow_half_raises.
Qed.

Lemma nearest_loop_raises zones acc e :
  nearest_loop pow clat clon zones acc = Py.Raise e ->
  e = Py.OverflowError \/ e = Py.TypeError.
Proof.
  revert acc. induction zones as [|zone zones IH]; intros acc; cbn [nearest_loop];
    [discriminate|].
  unfold nearest_step.
  destruct (click_distance pow clat clon zone) as [[x|]|e1] eqn:E.
  - apply IH.
  - intros [= <-]. by right.
  - intros [= <-]. left. by eapply click_distance_raises.
Qed.

(** The zone the loop ends with is one it went through, or the one it
    started with. *)
Lemma nearest_loop_closest zones acc m c :
  nearest_loop pow clat clon zones acc = Py.Ok (m, Some c) ->
  In c zones \/ snd acc = Some c.
Proof.
  revert acc. induction zones as [|zone zones IH]; intros acc; cbn [nearest_loop].
  - intros [= ->]. by right.
  - unfold nearest_step.
    destruct (click_distance pow clat clon zone) as [[x|]|e1]; try discriminate.
    intros H. destruct (IH _ H) as [Hin|Hacc]; [left; by right|].
    destruct (x <? fst acc)%float; cbn in Hacc.
    + injection Hacc as <-. left. by left.
    + by right.
Qed.

(** A distance that is not a float stops the loop with an exception. *)
Lemma nearest_loop_fails zones acc z :
  In z zones ->
  (forall x, click_distance pow clat clon z <> Py.Ok (Py.PyFloat x)) ->
  exists e, nearest_loop pow clat clon zones acc = Py.Raise e.
Proof.
  revert acc. induction zones as [|zone zones IH]; intros acc Hin Hz; [done|].
  cbn [nearest_loop]. unfold nearest_step.
  destruct (click_distance pow clat clon zone) as [[x|]|e1] eqn:E; [|eauto..].
  destruct Hin as [->|Hin]; [by destruct (Hz x)|]. by apply IH.
Qed.

Variable d : Zone -> float.

Lemma nearest_inv_update seen acc zone :
  nearest_inv d seen acc ->
  nearest_inv d (seen ++ [zone])
    (if (d zone <? fst acc)%float then (d zone, Some zone) else acc).
Proof.
  destruct acc as [m [c|]]; cbn [fst nearest_inv].
  - intros (-> & Hfin & before & after & -> & Hb & Ha).
    destruct (d zone <? d c)%float eqn:E.
    + split; [done|]. split; [by eapply FloatOrder.ltb_trans|].
      exists (before ++ c :: after), []. split; [done|]. split; [|done].
      intros z Hz. destruct (d z <=? d zone)%float eqn:Ez; [|done].
      pose proof (FloatOrder.leb_ltb_trans _ _ _ Ez E) as Hlt.
      apply in_app_or in Hz. destruct Hz as [Hz|[<-|Hz]].
      * apply FloatOrder.ltb_leb in Hlt. rewrite (Hb z Hz) in Hlt. done.
      * by rewrite FloatOrder.ltb_irrefl in Hlt.
      * rewrite (Ha z Hz) in Hlt. done.
    + split; [done|]. split; [done|].
      exists before, (after ++ [zone]). split; [by rewrite <- app_assoc|].
      split; [done|]. intros z Hz. apply in_app_or in Hz.
      destruct Hz as [Hz|[<-|[]]]; [by apply Ha | done].
  - intros (-> & Hs). destruct (d zone <? infinity)%float eqn:E.
    + split; [done|]. split; [done|]. exists seen, []. split; [done|].
      split; [|done]. intros z Hz. destruct (d z <=? d zone)%float eqn:Ez; [|done].
      pose proof (FloatOrder.leb_ltb_trans _ _ _ Ez E) as Hlt.
      rewrite (Hs z Hz) in Hlt. done.
    + split; [done|]. intros z Hz. apply in_app_or in Hz.
      destruct Hz as [Hz|[<-|[]]]; [by apply Hs | done].
Qed.

(** When every distance is computed, as the float [d z], the loop
    completes and keeps the invariant. *)
Lemma nearest_loop_inv zones seen acc :
  (forall z, In z zones ->
     click_distance pow clat clon z = Py.Ok (Py.PyFloat (d z))) ->
  nearest_inv d seen acc ->
  exists acc', nearest_loop pow clat clon zones acc = Py.Ok acc' /\
               nearest_inv d (seen ++ zones) acc'.
Proof.
  revert seen acc. induction zones as [|zone zones IH]; intros seen acc Hd H;
    cbn [nearest_loop].
  - exists acc. by rewrite app_nil_r.
  - unfold nearest_step. rewrite (Hd zone) by (by left).
    replace (seen ++ zone :: zones) with ((seen ++ [zone]) ++ zones)
      by (by rewrite <- app_assoc).
    apply IH; [intros z Hz; apply Hd; by right | by apply nearest_inv_update].
Qed.

Lemma nearest_among_inv zones :
  (forall z, In z zones ->
     click_distance pow clat clon z = Py.Ok (Py.PyFloat (d z))) ->
  exists acc, nearest_among pow zones clat clon = Py.Ok acc /\
              nearest_inv d zones acc.
Proof.
  intros Hd. apply (nearest_loop_inv zones [] (infinity, None) Hd).
  split; [done|]. intros z [].
Qed.

Lemma threshold_number : number click_threshold.
Proof. unfold number. vm_compute. discriminate. Qed.

Lemma threshold_finite : (click_threshold <? infinity)%float = true.
Proof. reflexivity. Qed.

Hypothesis computed : forall z, In z DANGER_ZONES ->
  click_distance pow clat clon z = Py.Ok (Py.PyFloat (d z)).

(** A hit: the chosen zone is within the threshold, first among the
    nearest. *)
Lemma resolve_click_hit z :
  resolve_click_on pow clat clon = Some z ->
  (d z <? click_threshold)%float = true /\
  exists before after, DANGER_ZONES = before ++ z :: after /\
    (forall z', In z' before -> (d z' <=? d z)%float = false) /\
    (forall z', In z' after -> (d z' <? d z)%float = false).
Proof.
  unfold resolve_click_on.
  destruct (nearest_among_inv DANGER_ZONES computed) as ([m [c|]] & -> & H); [|done].
  destruct H as (-> & _ & H).
  destruct (d c <? click_threshold)%float eqn:E; [|done].
  by intros [= <-].
Qed.

(** A miss: the loop completes and no zone is within the threshold. *)
Lemma resolve_click_miss :
  resolve_click_on pow clat clon = None ->
  (exists acc, nearest_among pow DANGER_ZONES clat clon = Py.Ok acc) /\
  forall z, In z DANGER_ZONES -> (d z <? click_threshold)%float = false.
Proof.
  unfold resolve_click_on.
  destruct (nearest_among_inv DANGER_ZONES computed) as ([m [c|]] & -> & H).
  - destruct H as (-> & Hfin & before & after & E0 & Hb & Ha).
    destruct (d c <? click_threshold)%float eqn:E; [done|]. intros _.
    split; [eauto|]. intros z Hz.
    destruct (d z <? click_threshold)%float eqn:Ez; [|done].
    assert (Hle : (click_threshold <=? d c)%float = true).
    { apply FloatOrder.not_ltb_leb; [|apply threshold_number|done].
      by destruct (FloatOrder.ltb_number _ _ Hfin). }
    pose proof (FloatOrder.ltb_leb_trans _ _ _ Ez Hle) as Hlt.
    rewrite E0 in Hz. apply in_app_or in Hz. destruct Hz as [Hz|[<-|Hz]].
    + apply FloatOrder.ltb_leb in Hlt. rewrite (Hb z Hz) in Hlt. done.
    + congruence.
    + rewrite (Ha z Hz) in Hlt. done.
  - destruct H as (-> & Hs). intros _. split; [eauto|]. intros z Hz.
    destruct (d z <? click_threshold)%float eqn:Ez; [|done].
    pose proof (FloatOrder.ltb_trans (d z) click_threshold infinity Ez threshold_finite) as Hlt.
    rewrite (Hs z Hz) in Hlt. done.
Qed.

End NearestZone.

Lemma resolve_click_on_known pow clat clon zone :
  resolve_click_on pow clat clon = Some zone -> In zone DANGER_ZONES.
Proof.
  unfold resolve_click_on, nearest_among.
  destruct (nearest_loop pow clat clon DANGER_ZONES (infinity, None))
    as [[m [c|]]|e] eqn:E; try done.
  destruct (m <? click_threshold)%float; [|done]. intros [= <-].
  by destruct (nearest_loop_closest _ _ _ _ _ _ _ E).
Qed.

(** C5: the distance of a zone is what line 523 computes for it: the two
    squares, their sum, its root.  When it is computed for every zone, a
    click selects a zone exactly when some zone is at distance strictly
    below 0.2; the zone selected is then at minimal distance, every zone
    earlier in the enumeration is strictly farther (the first of equally
    near zones wins), and the selection is made as by a zone change; when
    every zone is at distance at least 0.2 nothing is selected and the
    state is unchanged.  When the distance of some zone is not computed
    (a square overflows), the handler raises and the state, the selection
    included, is unchanged. *)
Theorem click_resolves_to_nearest_zone (pow : Py.LibmPow) (clat clon : float)
    (st : State) :
  (forall d : Zone -> float,
     (forall z, In z DANGER_ZONES ->
        exists a b,
          Py.pow_2 pow (lat z - clat) = Py.Ok a /\
          Py.pow_2 pow (lon z - clon) = Py.Ok b /\
          Py.pow_half pow (a + b) = Py.Ok (Py.PyFloat (d z))) ->
     (forall z, resolve_click_on pow clat clon = Some z ->
        (d z <? click_threshold)%float = true /\
        (forall z', In z' DANGER_ZONES -> is_nan (d z') = false ->
           (d z <=? d z')%float = true) /\
        (exists before after, DANGER_ZONES = before ++ z :: after /\
           (forall z', In z' before -> (d z' <=? d z)%float = false) /\
           (forall z', In z' before -> is_nan (d z') = false ->
              (d z <? d z')%float = true) /\
           (forall z', In z' after -> (d z' <? d z)%float = false)) /\
        map_click_on pow (Some (clat, clon)) st =
          (Py.Raise Py.RerunException, zone_changed (Some (zone_id z)) st)) /\
     (resolve_click_on pow clat clon = None ->
        (forall z', In z' DANGER_ZONES -> (d z' <? click_threshold)%float = false) /\
        map_click_on pow (Some (clat, clon)) st = (Py.Ok tt, st)) /\
     ((exists z', In z' DANGER_ZONES /\ (d z' <? click_threshold)%float = true) ->
        exists z, resolve_click_on pow clat clon = Some z) /\
     ((forall z', In z' DANGER_ZONES -> (click_threshold <=? d z')%float = true) ->
        resolve_click_on pow clat clon = None /\
        map_click_on pow (Some (clat, clon)) st = (Py.Ok tt, st))) /\
  (forall z, In z DANGER_ZONES ->
     (forall x, click_distance pow clat clon z <> Py.Ok (Py.PyFloat x)) ->
     resolve_click_on pow clat clon = None /\
     exists e, (e = Py.OverflowError \/ e = Py.TypeError) /\
       map_click_on pow (Some (clat, clon)) st = (Py.Raise e, st)).
Proof.
  split.
  - intros d Hpow.
    assert (Hd : forall z, In z DANGER_ZONES ->
              click_distance pow clat clon z = Py.Ok (Py.PyFloat (d z))).
    { intros z Hz. destruct (Hpow z Hz) as (a & b & Ha & Hb & Hr).
      unfold click_distance. by rewrite Ha, Hb. }
    assert (Hmiss : resolve_click_on pow clat clon = None ->
              map_click_on pow (Some (clat, clon)) st = (Py.Ok tt, st)).
    { intros Hn. rewrite map_click_on_run, Hn.
      by destruct (proj1 (resolve_click_miss pow clat clon d Hd Hn)) as [acc ->]. }
    split; [|split; [|split]].
    + intros z Hz.
      destruct (resolve_click_hit pow clat clon d Hd z Hz)
        as (Hthr & before & after & E & Hb & Ha).
      assert (Hnum : number (d z))
        by (by destruct (FloatOrder.ltb_number _ _ Hthr)).
      split; [done|]. split; [|split].
      * intros z' Hin Hnan. apply FloatOrder.is_nan_number in Hnan.
        rewrite E in Hin. apply in_app_or in Hin. destruct Hin as [Hin|[<-|Hin]].
        -- apply FloatOrder.ltb_leb, FloatOrder.not_leb_ltb; auto.
        -- apply FloatOrder.not_ltb_leb; auto using FloatOrder.ltb_irrefl.
        -- apply FloatOrder.not_ltb_leb; auto.
      * exists before, after. repeat split; try done.
        intros z' Hin Hnan. apply FloatOrder.is_nan_number in Hnan.
        apply FloatOrder.not_leb_ltb; auto.
      * by rewrite map_click_on_run, Hz.
    + intros Hn. split; [|by apply Hmiss].
      apply (resolve_click_miss pow clat clon d Hd Hn).
    + intros (z' & Hin & Hlt).
      destruct (resolve_click_on pow clat clon) as [z|] eqn:E; [eauto|].
      pose proof (proj2 (resolve_click_miss pow clat clon d Hd E) z' Hin) as H.
      congruence.
    + intros Hall.
      assert (E : resolve_click_on pow clat clon = None).
      { destruct (resolve_click_on pow clat clon) as [z|] eqn:E; [|done].
        destruct (resolve_click_hit pow clat clon d Hd z E)
          as (Hthr & before & after & Ez & _).
        assert (Hin : In z DANGER_ZONES) by (rewrite Ez; apply in_elt).
        pose proof (FloatOrder.leb_not_ltb _ _ (Hall z Hin)). congruence. }
      split; [done | by apply Hmiss].
  - intros z Hin Hz.
    destruct (nearest_loop_fails pow clat clon DANGER_ZONES (infinity, None) z Hin Hz)
      as [e He].
    assert (Hr : resolve_click_on pow clat clon = None).
    { unfold resolve_click_on, nearest_among. by rewrite He. }
    split; [done|]. exists e.
    split; [by eapply nearest_loop_raises|].
    rewrite map_click_on_run, Hr. unfold nearest_among. by rewrite He.
Qed.

(** A click at the info box of Z2 while Z1 is selected: Z1, the first
    zone of the enumeration, is 0.206 away, Z2 0.141, and Z2 is selected;
    a click a quarter of a degree north of the marker of Z1, the nearest
    zone: a miss; a click whose longitude is 1e200: the square overflows. *)
Lemma click_resolves_to_nearest_zone_witness :
  map_click_on exact_pow (Some (40.05 + 0.10, 49.9 + 0.10)%float) z1_asked =
    (Py.Raise Py.RerunException,
     {| selected_zone_id := Some "Z2"; selected_spill_id := None;
        chat_messages := []; cleanup_status := init_cleanup_status |}) /\
  map_click_on exact_pow (Some (40.45, 49.80)%float) z1_asked = (Py.Ok tt, z1_asked) /\
  exists e, map_click_on exact_pow (Some (40.20, 1e200)%float) z1_asked =
              (Py.Raise e, z1_asked).
Proof.
  pose (dist := fun (clat clon : float) (z : Zone) =>
    PrimFloat.sqrt ((lat z - clat) * (lat z - clat) +
                    (lon z - clon) * (lon z - clon))%float).
  assert (Hd : forall clat clon,
            (clat, clon) = (40.05 + 0.10, 49.9 + 0.10)%float \/
            (clat, clon) = (40.45, 49.80)%float ->
            forall z, In z DANGER_ZONES ->
            exists a b,
              Py.pow_2 exact_pow (lat z - clat) = Py.Ok a /\
              Py.pow_2 exact_pow (lon z - clon) = Py.Ok b /\
              Py.pow_half exact_pow (a + b) = Py.Ok (Py.PyFloat (dist clat clon z))).
  { intros clat clon Hc z Hz.
    exists ((lat z - clat) * (lat z - clat))%float,
           ((lon z - clon) * (lon z - clon))%float.
    destruct Hc as [[= -> ->]|[= -> ->]]; destruct Hz as [<-|[<-|[<-|[]]]];
      repeat split; vm_compute; reflexivity. }
  split; [|split].
  - assert (Hr : resolve_click_on exact_pow (40.05 + 0.10) (49.9 + 0.10) =
                 Some {| zone_id := "Z2"; lat := 40.05; lon := 49.9;
                         scene_id := "SCENARIO_001" |})
      by (vm_compute; reflexivity).
    exact (proj2 (proj2 (proj2 (proj1 (proj1
             (click_resolves_to_nearest_zone exact_pow _ _ z1_asked)
             (dist _ _) (Hd _ _ (or_introl eq_refl))) _ Hr)))).
  - assert (Hfar : forall z', In z' DANGER_ZONES ->
              (click_threshold <=? dist 40.45 49.80 z')%float = true)
      by (intros z' [<-|[<-|[<-|[]]]]; vm_compute; reflexivity).
    exact (proj2 (proj2 (proj2 (proj2 (proj1
             (click_resolves_to_nearest_zone exact_pow _ _ z1_asked)
             (dist _ _) (Hd _ _ (or_intror eq_refl))))) Hfar)).
  - assert (Hin : In {| zone_id := "Z1"; lat := 40.20; lon := 49.80;
                        scene_id := "SCENARIO_001" |} DANGER_ZONES) by (cbn; tauto).
    assert (Hz : forall x,
              click_distance exact_pow 40.20 1e200
                {| zone_id := "Z1"; lat := 40.20; lon := 49.80;
                   scene_id := "SCENARIO_001" |} <> Py.Ok (Py.PyFloat x))
      by (intros x; vm_compute; discriminate).
    destruct (proj2 (click_resolves_to_nearest_zone exact_pow 40.20 1e200 z1_asked)
                _ Hin Hz) as (_ & e & _ & He).
    exists e. exact He.
Defined.

(** *** What a run can do *)

Lemma index_None_not_In l x : Py.index l x = None -> ~ In x l.
Proof. intros H Hin. destruct (index_of_In _ _ Hin) as [i Hi]. congruence. Qed.

(** The assistant column, entered with a spill [s] of the zone selected. *)
Lemma assistant_panel_effect pow client w st s :
  In s (zone_spill_ids st) ->
  In (cleanup_spill_select w) (zone_spill_labels st) ->
  let st1 := set_selected_spill_id (Some s) st in
  let r := assistant_panel client (assistant_spill_select w) (chat_input w) st1 in
  run_effect pow w st (fst r) (snd r).
Proof.
  intros Hs Hl st1 r. subst r. rewrite assistant_panel_run.
  unfold zone_spill_ids in Hs.
  change (zone_features st1) with (zone_features st).
  destruct (zone_features st) as [|f fs] eqn:E; [done|]. cbv zeta.
  rewrite bind_run.
  pose proof (spill_selectbox_run f fs (assistant_spill_select w) st1) as H.
  cbv zeta in H.
  destruct (Py.index (spill_labels_of (f :: fs)) (assistant_spill_select w))
    as [i|] eqn:Hi.
  - destruct H as (sid & Hn & ->).
    assert (Hsid : In sid (spill_ids_of (f :: fs))) by (by eapply nth_error_In).
    assert (Hl' : In (assistant_spill_select w) (zone_spill_labels st)).
    { unfold zone_spill_labels. rewrite E. by eapply index_In. }
    rewrite bind_run. destruct (find_spill _ _ Hsid) as (ft & -> & _ & _).
    cbn [expect ret].
    change (set_selected_spill_id (Some sid) st1) with
      (set_selected_spill_id (Some sid) st).
    assert (Hin : In sid (zone_spill_ids st)) by (unfold zone_spill_ids; by rewrite E).
    destruct (chat_input w) as [q|] eqn:Hq; [|by apply effect_spill_selected].
    rewrite chat_turn_run. destruct (String.eqb_spec q "");
      [by apply effect_spill_selected|].
    change (selected_zone_id st1) with (selected_zone_id st).
    destruct (known_zone_meta (default "" (selected_zone_id st))) as [zm ->].
    { by rewrite (zone_features_truthy st f fs). }
    destruct (get_ai_response_known_zone client zm (properties ft)
                (get_history_summary (default "" (selected_zone_id st))) q)
      as [answer ->].
    change (chat_messages (set_selected_spill_id (Some sid) st)) with
      (chat_messages st).
    by apply effect_chat.
  - rewrite H. cbn [fst snd].
    change (selected_spill_id st1) with (Some s).
    rewrite (coerced_selected _ _ Hs).
    change (set_selected_spill_id (Some s) st1) with
      (set_selected_spill_id (Some s) st).
    apply effect_assistant_label_unknown; [|done|].
    + unfold zone_spill_ids. by rewrite E.
    + unfold zone_spill_labels. rewrite E. by apply index_None_not_In.
Qed.

(** The two columns below the map. *)
Lemma controls_effect pow client w st :
  let r := (cleanup_control (cleanup_spill_select w) (cleanup_click w) ;;;
            assistant_panel client (assistant_spill_select w) (chat_input w)) st in
  run_effect pow w st (fst r) (snd r).
Proof.
  intros r. subst r. rewrite bind_run, cleanup_control_run.
  destruct (zone_features st) as [|f fs] eqn:E.
  - rewrite assistant_panel_no_zone by done. by apply effect_nothing_to_select.
  - rewrite bind_run.
    pose proof (spill_selectbox_run f fs (cleanup_spill_select w) st) as H.
    cbv zeta in H.
    destruct (Py.index (spill_labels_of (f :: fs)) (cleanup_spill_select w))
      as [i|] eqn:Hi.
    + destruct H as (sid & Hn & ->).
      assert (Hin : In sid (zone_spill_ids st)).
      { unfold zone_spill_ids. rewrite E. by eapply nth_error_In. }
      assert (Hl : In (cleanup_spill_select w) (zone_spill_labels st)).
      { unfold zone_spill_labels. rewrite E. by eapply index_In. }
      rewrite cleanup_button_run.
      change (status_of (set_selected_spill_id (Some sid) st) sid) with
        (status_of st sid).
      destruct (status_of st sid) eqn:Hst, (cleanup_click w) eqn:Hb;
        try (apply (assistant_panel_effect pow client w st sid Hin Hl));
        (apply effect_cleanup; [done | done | done | tauto]).
    + rewrite H. cbn [fst snd].
      destruct (coerced_In f fs (selected_spill_id st)) as (s & -> & Hs).
      apply effect_cleanup_label_unknown.
      * unfold zone_spill_ids. by rewrite E.
      * unfold zone_spill_labels. rewrite E. by apply index_None_not_In.
Qed.

Lemma script_run_on_cases (pow : Py.LibmPow) (client : Client) (w : Widgets)
    (st : State) :
  run_effect pow w st (fst (script_run_on pow client w st))
    (snd (script_run_on pow client w st)).
Proof.
  unfold script_run_on. rewrite bind_run, sidebar_run.
  destruct (decide _) as [Hz|Hz]; [|by apply effect_dropdown].
  rewrite bind_run, map_click_on_run.
  destruct (last_object_clicked w) as [[clat clon]|] eqn:Hc; [|apply controls_effect].
  destruct (resolve_click_on pow clat clon) as [zone|] eqn:Hr.
  - eapply effect_click; eauto using resolve_click_on_known.
  - destruct (nearest_among pow DANGER_ZONES clat clon) as [acc|e] eqn:Hn.
    + apply controls_effect.
    + eapply effect_click_error; eauto. by eapply nearest_loop_raises.
Qed.

Lemma script_run_cases (client : Client) (w : Widgets) (st : State) :
  run_effect exact_pow w st (fst (script_run client w st)) (after_run client w st).
Proof. apply script_run_on_cases. Qed.

(** X1: every run, whatever the library's [pow], falls under one of
    these cases: it changes the zone (from the dropdown or a click), stops
    with the exception raised while a click's distances are computed
    (state unchanged), finds nothing to select, stops with ValueError at a
    selectbox value that is not one of its options (at the cleanup
    selectbox, or else at the assistant's), advances the cleanup of the
    selected spill by one step, adds one question/answer pair, or just
    settles the spill selection on a spill of the zone. *)
Theorem script_run_effect (pow : Py.LibmPow) (client : Client) (w : Widgets)
    (st : State) :
  run_effect pow w st (fst (script_run_on pow client w st))
    (snd (script_run_on pow client w st)).
Proof. apply script_run_on_cases. Qed.

(** Case analysis on what the run of [w] from [st] did. *)
Ltac effect_cases client w st :=
  let H := fresh "Heffect" in
  pose proof (script_run_cases client w st) as H;
  generalize dependent (after_run client w st);
  generalize dependent (fst (script_run client w st));
  intros ? ? H; destruct H.

(** X2: a run ends normally, by a rerun, with a ValueError, or with the
    OverflowError or TypeError of a click whose distances cannot be
    computed or compared; nothing else (no IndexError, StopIteration or
    AttributeError).  The ValueError needs a zone with spills selected
    and a spill selectbox value that is not among the labels offered for
    that zone; the other two need a reported click, whose loop over the
    zones they end, and leave the state as it was. *)
Theorem script_run_outcomes (pow : Py.LibmPow) (client : Client) (w : Widgets)
    (st : State) :
  let outcome := fst (script_run_on pow client w st) in
  (outcome = Py.Ok tt \/ outcome = Py.Raise Py.RerunException \/
   outcome = Py.Raise Py.ValueError \/ outcome = Py.Raise Py.OverflowError \/
   outcome = Py.Raise Py.TypeError) /\
  (outcome = Py.Raise Py.ValueError ->
     zone_features st <> [] /\
     (~ In (cleanup_spill_select w) (zone_spill_labels st) \/
      ~ In (assistant_spill_select w) (zone_spill_labels st))) /\
  (forall e, e = Py.OverflowError \/ e = Py.TypeError ->
     outcome = Py.Raise e ->
     snd (script_run_on pow client w st) = st /\
     exists clat clon,
       last_object_clicked w = Some (clat, clon) /\
       nearest_among pow DANGER_ZONES clat clon = Py.Raise e).
Proof.
  cbv zeta. pose proof (script_run_on_cases pow client w st) as H.
  assert (Hne : forall s, In s (zone_spill_ids st) -> zone_features st <> []).
  { intros s Hs E. unfold zone_spill_ids in Hs. by rewrite E in Hs. }
  generalize dependent (snd (script_run_on pow client w st)).
  generalize dependent (fst (script_run_on pow client w st)).
  intros outcome st' H. destruct H as [| |clat clon e Hc Hn [-> | ->]| | | | | |];
    (split; [tauto|]); (split; [try discriminate; intros _; eauto|]);
    intros e' [-> | ->]; try discriminate; intros _; eauto.
Qed.

(** Z1 and S1 selected: a run whose selectboxes return no label of the
    zone ends with ValueError; a run with a click at longitude 1e200 ends
    with OverflowError and leaves the state as it was. *)
Lemma script_run_outcomes_witness :
  (fst (script_run_on exact_pow None (widgets_idle "Z1") z1_selected) =
     Py.Raise Py.ValueError /\
   zone_features z1_selected <> [] /\
   (~ In (cleanup_spill_select (widgets_idle "Z1")) (zone_spill_labels z1_selected) \/
    ~ In (assistant_spill_select (widgets_idle "Z1")) (zone_spill_labels z1_selected))) /\
  (fst (script_run_on exact_pow None (click_at "Z1" 40.20 1e200) z1_selected) =
     Py.Raise Py.OverflowError /\
   snd (script_run_on exact_pow None (click_at "Z1" 40.20 1e200) z1_selected) =
     z1_selected).
Proof.
  assert (H : fst (script_run_on exact_pow None (widgets_idle "Z1") z1_selected) =
              Py.Raise Py.ValueError) by (vm_compute; reflexivity).
  assert (H' : fst (script_run_on exact_pow None (click_at "Z1" 40.20 1e200)
                      z1_selected) = Py.Raise Py.OverflowError)
    by (vm_compute; reflexivity).
  split.
  - split; [exact H|].
    exact (proj1 (proj2 (script_run_outcomes exact_pow None (widgets_idle "Z1")
                           z1_selected)) H).
  - split; [exact H'|].
    exact (proj1 (proj2 (proj2 (script_run_outcomes exact_pow None
                                  (click_at "Z1" 40.20 1e200) z1_selected))
                    Py.OverflowError (or_introl eq_refl) H')).
Defined.

(** X3: the selected zone changes in a run only together with the reset:
    whenever a run leaves a different zone selected, it leaves no spill
    selected, an empty transcript and the cleanup statuses as they were,
    and it ends by a rerun. *)
Theorem zone_changes_only_with_reset (client : Client) (w : Widgets) (st : State) :
  selected_zone_id (after_run client w st) <> selected_zone_id st ->
  selected_spill_id (after_run client w st) = None /\
  chat_messages (after_run client w st) = [] /\
  cleanup_status (after_run client w st) = cleanup_status st /\
  fst (script_run client w st) = Py.Raise Py.RerunException.
Proof.
  effect_cases client w st; cbn; done.
Qed.

Lemma zone_changes_only_with_reset_witness :
  chat_messages (after_run None (widgets_idle "Z2") z1_selected) = [] /\
  selected_spill_id (after_run None (widgets_idle "Z2") z1_selected) = None.
Proof.
  assert (H : selected_zone_id (after_run None (widgets_idle "Z2") z1_selected) <>
              selected_zone_id z1_selected) by (vm_compute; discriminate).
  pose proof (zone_changes_only_with_reset None (widgets_idle "Z2") z1_selected H)
    as (H1 & H2 & _).
  exact (conj H2 H1).
Defined.

(** X4: a run leaves the transcript as it was, empties it, or appends
    exactly one question/answer pair for the non-empty question typed;
    for no widget values and no gateway outcome does it append a lone
    entry, drop single entries or rewrite earlier ones. *)
Theorem transcript_effect (client : Client) (w : Widgets) (st : State) :
  let after := chat_messages (after_run client w st) in
  after = chat_messages st \/
  after = [] \/
  exists q answer, chat_input w = Some q /\ q <> "" /\
    after = chat_messages st ++ [user_message q; assistant_message answer].
Proof.
  cbv zeta. effect_cases client w st; cbn; eauto 8.
Qed.

Lemma paired_even msgs : paired msgs -> Nat.Even (length msgs).
Proof.
  induction 1 as [|msgs q answer _ [k Hk]]; [by exists 0|].
  exists (S k). rewrite length_app. cbn. lia.
Qed.

(** X5: in every state a session can reach the transcript is a sequence
    of question/answer pairs: an even number of entries, a user entry
    always directly followed by an assistant entry. *)
Theorem transcript_is_paired (st : State) :
  reachable st ->
  paired (chat_messages st) /\ Nat.Even (length (chat_messages st)).
Proof.
  intros Hr. assert (Hp : paired (chat_messages st)).
  { induction Hr as [|client w st Hr IH]; [constructor|]. clear Hr.
    effect_cases client w st; cbn; try done; try constructor; done. }
  split; [done | by apply paired_even].
Qed.

Lemma transcript_is_paired_witness :
  let st := session (Some failing_service)
              [widgets_idle "Z1"; ask_about_s1; ask_about_s1] initial_state in
  paired (chat_messages st) /\ length (chat_messages st) = 4.
Proof.
  intros st. split; [|vm_compute; reflexivity].
  apply transcript_is_paired. subst st. unfold session. cbn [fold_left].
  do 3 apply reachable_run. apply reachable_initial.
Defined.

(** *** The cleanup status table *)

Lemma init_features_lookup fs (m : gmap string Status) sid :
  fold_left (fun status f =>
      let sid := spill_id (properties f) in
      if Py.truthy (Some sid) then <[sid := idle]> status else status) fs m !! sid =
  if Py.truthy (Some sid) && Py.contains (spill_ids_of fs) (Some sid)
  then Some idle else m !! sid.
Proof.
  revert m. induction fs as [|f fs IH]; intros m; cbn [fold_left].
  - by rewrite andb_false_r.
  - rewrite IH. cbn [spill_ids_of map Py.contains existsb].
    fold (spill_ids_of fs). fold (Py.contains (spill_ids_of fs) (Some sid)).
    destruct (String.eqb_spec sid (spill_id (properties f))) as [->|Hne];
      cbn [orb].
    + destruct (Py.truthy (Some (spill_id (properties f)))),
        (Py.contains (spill_ids_of fs) _); cbn [andb]; try done.
      by rewrite lookup_insert_eq.
    + assert (E : (if Py.truthy (Some (spill_id (properties f)))
                   then <[spill_id (properties f) := idle]> m else m) !! sid
                  = m !! sid).
      { destruct (Py.truthy (Some (spill_id (properties f)))); [|done].
        rewrite lookup_insert_ne; [done | congruence]. }
      by rewrite E.
Qed.

Lemma init_zones_lookup zones (m : gmap string Status) sid :
  fold_left (fun status zone =>
    fold_left (fun status f =>
      let sid := spill_id (properties f) in
      if Py.truthy (Some sid) then <[sid := idle]> status else status)
      (features (get_spill_geojson (zone_id zone))) status) zones m !! sid =
  if Py.truthy (Some sid) &&
     existsb (fun zone =>
       Py.contains (spill_ids_of (features (get_spill_geojson (zone_id zone))))
         (Some sid)) zones
  then Some idle else m !! sid.
Proof.
  revert m. induction zones as [|zone zones IH]; intros m; cbn [fold_left existsb].
  - by rewrite andb_false_r.
  - rewrite IH, init_features_lookup.
    destruct (Py.truthy (Some sid)); [|done]. cbn [andb].
    destruct (existsb _ zones); [by rewrite orb_true_r|]. by rewrite orb_false_r.
Qed.

(** X6: the initial status table has an entry, idle, for exactly the
    non-empty spill ids that occur among the features of the listed
    zones, and no other key; this holds for any list of zones, the
    script's table being the one for DANGER_ZONES. *)
Theorem init_cleanup_status_keys (zones : list Zone) (sid : string) :
  init_cleanup_status = init_cleanup_status_in DANGER_ZONES /\
  (init_cleanup_status_in zones !! sid = Some idle <->
     sid <> "" /\
     exists zone, In zone zones /\
       In sid (spill_ids_of (features (get_spill_geojson (zone_id zone))))) /\
  (init_cleanup_status_in zones !! sid = Some idle \/
   init_cleanup_status_in zones !! sid = None).
Proof.
  split; [reflexivity|]. unfold init_cleanup_status_in.
  rewrite init_zones_lookup, lookup_empty. split.
  - unfold Py.truthy. destruct (String.eqb_spec sid "") as [->|Hne]; cbn [negb andb].
    + split; [done | tauto].
    + destruct (existsb _ zones) eqn:E.
      * apply existsb_exists in E. destruct E as (zone & Hin & Hc).
        apply contains_In in Hc. split; eauto.
      * split; [done|]. intros (_ & zone & Hin & Hs).
        assert (existsb (fun zone => Py.contains (spill_ids_of
                  (features (get_spill_geojson (zone_id zone)))) (Some sid)) zones
                = true); [|congruence].
        apply existsb_exists. exists zone. split; [done | by apply contains_In].
  - destruct (_ && _); tauto.
Qed.

Lemma zone_spill_known st s :
  In s (zone_spill_ids st) -> s = "S1" \/ s = "S2" \/ s = "S3".
Proof.
  unfold zone_spill_ids, zone_features. destruct (Py.truthy _); [|done].
  destruct (features_cases (default "" (selected_zone_id st)))
    as [[-> | [-> | ->]] | ->]; [vm_compute; intuition congruence..|done].
Qed.

Lemma zone_spill_has_status st s :
  In s (zone_spill_ids st) -> is_Some (init_cleanup_status !! s).
Proof.
  intros H. destruct (zone_spill_known st s H) as [-> | [-> | ->]];
    by eexists.
Qed.

(** X7: in every state a session can reach the status table has the
    keys it started with, the spill ids of the scenario: no run adds a
    key (a status is only ever written for a spill that has one) and
    none removes one. *)
Theorem cleanup_status_keys_fixed (st : State) :
  reachable st ->
  (forall sid, is_Some (cleanup_status st !! sid) <->
               is_Some (init_cleanup_status !! sid)) /\
  dom (cleanup_status st) = dom init_cleanup_status.
Proof.
  intros Hr.
  assert (H : forall sid, is_Some (cleanup_status st !! sid) <->
                          is_Some (init_cleanup_status !! sid)).
  { induction Hr as [|client w st Hr IH]; [done|]. intros sid.
    rewrite <- IH. clear Hr.
    effect_cases client w st; cbn [cleanup_status zone_changed set_selected_spill_id
      set_cleanup_status set_chat_messages]; try done.
    rewrite lookup_insert. destruct (decide (s = sid)) as [<-|]; [|done].
    split; [intros _ | by eexists].
    apply IH. by eapply zone_spill_has_status. }
  split; [done|]. apply set_eq. intros sid. rewrite !elem_of_dom. apply H.
Qed.

Lemma cleanup_status_keys_fixed_witness :
  dom (cleanup_status (session None [widgets_idle "Z1"; press_cleanup_s1] initial_state))
  = dom init_cleanup_status.
Proof.
  apply cleanup_status_keys_fixed. unfold session. cbn [fold_left].
  do 2 apply reachable_run. apply reachable_initial.
Defined.

(** X8: a run changes the cleanup status of at most one spill, and only
    by a click on the cleanup button: the spill whose status changed is a
    spill of the selected zone, it is the spill left selected, every
    other status is as before, zone and transcript are untouched and the
    run ends by a rerun. *)
Theorem cleanup_changes_selected_spill_only (client : Client) (w : Widgets)
    (st : State) (sid : string) :
  status_of (after_run client w st) sid <> status_of st sid ->
  In sid (zone_spill_ids st) /\
  selected_spill_id (after_run client w st) = Some sid /\
  cleanup_click w = true /\
  (forall other, other <> sid ->
     status_of (after_run client w st) other = status_of st other) /\
  selected_zone_id (after_run client w st) = selected_zone_id st /\
  chat_messages (after_run client w st) = chat_messages st /\
  fst (script_run client w st) = Py.Raise Py.RerunException.
Proof.
  effect_cases client w st; try done.
  rewrite status_of_set. destruct (decide (s = sid)) as [<-|]; [|done].
  intros _. repeat split; try done.
  intros other Hne. rewrite status_of_set. by destruct (decide _).
Qed.

Lemma cleanup_changes_selected_spill_only_witness :
  In "S1" (zone_spill_ids z1_selected) /\
  status_of (after_run None press_cleanup_s1 z1_selected) "S2" =
    status_of z1_selected "S2".
Proof.
  assert (H : status_of (after_run None press_cleanup_s1 z1_selected) "S1" <>
              status_of z1_selected "S1") by (vm_compute; discriminate).
  pose proof (cleanup_changes_selected_spill_only None press_cleanup_s1
                z1_selected "S1" H) as (H1 & _ & _ & H2 & _).
  split; [exact H1 | apply H2; discriminate].
Defined.

(** X9: done is final: once a spill is done it is done after every
    further run, whatever the operator does. *)
Theorem done_is_final (client : Client) (ws : list Widgets) (st : State)
    (sid : string) :
  status_of st sid = done -> status_of (session client ws st) sid = done.
Proof.
  revert st. induction ws as [|w ws IH]; intros st H; [done|].
  cbn. apply IH. destruct (script_run_advances client w st sid) as [E|[[E _]|[E _]]];
    unfold after_run; congruence.
Qed.

Lemma done_is_final_witness :
  status_of (session None [press_cleanup_s1; press_cleanup_s1; press_cleanup_s1;
                           widgets_idle "Z2"; widgets_idle "Z1"] z1_selected) "S1"
  = done.
Proof.
  change (status_of
    (session None [press_cleanup_s1; widgets_idle "Z2"; widgets_idle "Z1"]
       (session None [press_cleanup_s1; press_cleanup_s1] z1_selected)) "S1" = done).
  apply done_is_final. vm_compute. reflexivity.
Defined.

(** X10: choosing the zone that is already selected in the dropdown is a
    no-op, but a map click that resolves to the already selected zone
    (a click on its marker does) is not compared with the selection: it
    resets the selected spill, empties the transcript and reruns. *)
Theorem reselecting_zone_by_click_resets (st : State) (zone : Zone) :
  In zone DANGER_ZONES ->
  selected_zone_id st = Some (zone_id zone) ->
  sidebar_zone_selection (zone_id zone) st = (Py.Ok tt, st) /\
  resolve_click (lat zone) (lon zone) = Some zone /\
  (forall client w clat clon,
     zone_selectbox w = zone_id zone ->
     last_object_clicked w = Some (clat, clon) ->
     resolve_click clat clon = Some zone ->
     script_run client w st =
       (Py.Raise Py.RerunException,
        {| selected_zone_id := Some (zone_id zone); selected_spill_id := None;
           chat_messages := []; cleanup_status := cleanup_status st |})).
Proof.
  intros Hin Hz. destruct (known_zone_option zone Hin) as [_ Hopt].
  split; [|split].
  - rewrite sidebar_run, Hopt, Hz. by destruct (decide _).
  - by apply known_zone_click.
  - intros client w clat clon Hw Hc Hr.
    rewrite (script_run_click client w st clat clon zone); [done| |done..].
    by rewrite Hw, Hopt.
Qed.

Lemma reselecting_zone_by_click_resets_witness :
  let st := session (Some failing_service)
              [widgets_idle "Z1"; ask_about_s1] initial_state in
  chat_messages st <> [] /\
  sidebar_zone_selection "Z1" st = (Py.Ok tt, st) /\
  resolve_click 40.20 49.80 =
    Some {| zone_id := "Z1"; lat := 40.20; lon := 49.80; scene_id := "SCENARIO_001" |}.
Proof.
  intros st.
  assert (Hin : In {| zone_id := "Z1"; lat := 40.20; lon := 49.80;
                      scene_id := "SCENARIO_001" |} DANGER_ZONES) by (cbn; tauto).
  assert (Hz : selected_zone_id st = Some "Z1") by (vm_compute; reflexivity).
  split; [vm_compute; discriminate|].
  pose proof (reselecting_zone_by_click_resets st _ Hin Hz) as (H1 & H2 & _).
  exact (conj H1 H2).
Defined.

(** *** Zone lookup and the zone dropdown *)

Lemma get_zone_meta_known z :
  In z DANGER_ZONES -> get_zone_meta (zone_id z) = Some z.
Proof. intros [<-|[<-|[<-|[]]]]; reflexivity. Qed.

(** X11: [get_zone_meta] returns the first zone of the list with the
    given id and nothing when no zone has it; the ids of the scenario
    being distinct, looking up the id of a zone of DANGER_ZONES returns
    that zone. *)
Theorem get_zone_meta_finds_first (zones : list Zone) (zid : string) :
  match get_zone_meta_in zones zid with
  | Some z =>
      zone_id z = zid /\
      exists before after, zones = before ++ z :: after /\
        forall z', In z' before -> zone_id z' <> zid
  | None => forall z, In z zones -> zone_id z <> zid
  end /\
  (forall z, In z DANGER_ZONES -> get_zone_meta (zone_id z) = Some z).
Proof.
  split.
  - induction zones as [|z zones IH]; cbn; [done|].
    destruct (String.eqb_spec (zone_id z) zid) as [E|E].
    + split; [done|]. exists [], zones. done.
    + destruct (get_zone_meta_in zones zid) as [z0|].
      * destruct IH as (Hid & before & after & -> & Hb). split; [done|].
        exists (z :: before), after. split; [done|].
        intros z' [<-|Hz']; [done | by apply Hb].
      * intros z' [<-|Hz']; [done | by apply IH].
  - apply get_zone_meta_known.
Qed.

Lemma zone_index_from_none zones selected i :
  (forall z, In z zones -> selected <> Some (zone_id z)) ->
  zone_index_from zones selected i = 0.
Proof.
  revert i. induction zones as [|z zones IH]; intros i H; cbn; [done|].
  destruct (decide _) as [E|_].
  - exfalso. eapply H; [by left | done].
  - apply IH. intros z' Hz'. apply H. by right.
Qed.

(** X12: the index the script gives the zone dropdown designates the
    current selection: when the selected zone is none or a zone of the
    scenario, the option at that index stands for exactly the selected
    zone, so an untouched dropdown never triggers a zone change; for any
    other stored id the index falls back to 0, the option "None". *)
Theorem zone_select_index_designates (st : State) :
  zone_select_index st < length zone_options /\
  (zone_known st ->
     new_zone_id (nth (zone_select_index st) zone_options "") = selected_zone_id st /\
     sidebar_zone_selection (nth (zone_select_index st) zone_options "") st =
       (Py.Ok tt, st)) /\
  ((forall z, In z DANGER_ZONES -> selected_zone_id st <> Some (zone_id z)) ->
     nth (zone_select_index st) zone_options "" = "None").
Proof.
  assert (Hidx : forall zid i,
            zone_index_from DANGER_ZONES zid i <= i + length DANGER_ZONES).
  { intros zid. generalize DANGER_ZONES. intros zs.
    induction zs as [|z zs IH]; intros i; cbn; [lia|].
    destruct (decide _); [lia|]. specialize (IH (S i)). lia. }
  split; [|split].
  - unfold zone_select_index. destruct (String.eqb _ "None"); [cbn; lia|].
    specialize (Hidx (selected_zone_id st) 0). cbn in *. lia.
  - intros Hk.
    assert (E : new_zone_id (nth (zone_select_index st) zone_options "") =
                selected_zone_id st).
    { unfold zone_select_index.
      destruct Hk as [->|(z & [<-|[<-|[<-|[]]]] & ->)]; reflexivity. }
    split; [done|]. rewrite sidebar_run, E. by destruct (decide _).
  - intros Hu. unfold zone_select_index.
    destruct (String.eqb _ "None"); [done|].
    by rewrite zone_index_from_none.
Qed.

Lemma zone_select_index_designates_witness :
  new_zone_id (nth (zone_select_index z1_selected) zone_options "") =
    selected_zone_id z1_selected.
Proof.
  apply (zone_select_index_designates z1_selected).
  right. exists {| zone_id := "Z1"; lat := 40.20; lon := 49.80;
                   scene_id := "SCENARIO_001" |}.
  split; [cbn; tauto | reflexivity].
Defined.

(** X13: when the dropdown only returns its options, the selected zone
    is at all times none or a zone of the scenario, and so its metadata
    is found whenever a zone is selected. *)
Theorem selected_zone_is_known (st : State) :
  ui_reachable st ->
  zone_known st /\
  (forall zid, selected_zone_id st = Some zid ->
     exists zone, get_zone_meta zid = Some zone /\ zone_id zone = zid).
Proof.
  intros Hr. assert (Hk : zone_known st).
  { induction Hr as [|client w st Hr IH Hopt]; [by left|].
    assert (Hnew : zone_known (zone_changed (new_zone_id (zone_selectbox w)) st)).
    { destruct Hopt as [<-|Hopt]; [by left|]. right.
      apply in_map_iff in Hopt. destruct Hopt as (z & <- & Hz).
      exists z. split; [done|]. cbn. by destruct (known_zone_option z Hz). }
    effect_cases client w st; try done.
    right. eauto. }
  split; [done|]. intros zid Hz.
  destruct Hk as [Hk|(zone & Hin & Hk)]; [congruence|].
  rewrite Hk in Hz. injection Hz as <-. exists zone. split; [|done].
  by apply get_zone_meta_known.
Qed.

Lemma selected_zone_is_known_witness :
  zone_known (after_run None (widgets_idle "Z3") initial_state).
Proof.
  apply selected_zone_is_known. apply ui_run; [apply ui_initial|].
  cbn. tauto.
Defined.


(** *** Runs without interaction *)

Lemma default_spill_label_single st f :
  zone_features st = [f] -> default_spill_label st = spill_label (properties f).
Proof.
  intros E. unfold default_spill_label. rewrite E.
  destruct (coerced_In f [] (selected_spill_id st)) as (s & -> & [<-|[]]).
  cbn [spill_ids_of map Py.index]. by rewrite String.eqb_refl.
Qed.

Lemma untouched_controls client label st f :
  zone_features st = [f] ->
  label = spill_label (properties f) ->
  (cleanup_control label false ;;; assistant_panel client label None) st =
    (Py.Ok tt, set_selected_spill_id (Some (spill_id (properties f))) st).
Proof.
  intros E ->. rewrite bind_run, cleanup_control_run, E, bind_run.
  rewrite spill_selectbox_choose, cleanup_button_run.
  replace (match status_of _ _ with idle | _ => _ end) with
    (@Py.Ok unit tt, set_selected_spill_id (Some (spill_id (properties f))) st)
    by (by destruct (status_of _ _)).
  rewrite assistant_panel_run.
  change (zone_features (set_selected_spill_id _ st)) with (zone_features st).
  rewrite E. cbv zeta. rewrite bind_run, spill_selectbox_choose, bind_run.
  cbn [find]. by rewrite String.eqb_refl.
Qed.

(** X14: a run in which the operator touches nothing (every selectbox
    returns the option at the index the script gave it, no click, no
    question) completes without a rerun and without an exception when the
    selected zone is none or a zone of the scenario.  It changes at most
    the selected spill, to a spill of the zone; it changes nothing at all
    when the zone has no spills or one of its spills is selected already,
    and a second such run changes nothing. *)
Theorem untouched_run_is_quiet (client : Client) (st : State) :
  zone_known st ->
  exists st',
    script_run client (untouched st) st = (Py.Ok tt, st') /\
    selected_zone_id st' = selected_zone_id st /\
    chat_messages st' = chat_messages st /\
    cleanup_status st' = cleanup_status st /\
    (zone_features st = [] -> st' = st) /\
    (forall s, selected_spill_id st = Some s -> In s (zone_spill_ids st) -> st' = st) /\
    (zone_features st <> [] ->
       exists s, In s (zone_spill_ids st) /\ selected_spill_id st' = Some s) /\
    script_run client (untouched st') st' = (Py.Ok tt, st').
Proof.
  intros Hk.
  assert (Hside : forall st0, selected_zone_id st0 = selected_zone_id st ->
            new_zone_id (zone_selectbox (untouched st0)) = selected_zone_id st0).
  { intros st0 E. unfold untouched, zone_select_index. cbn [zone_selectbox].
    rewrite E. destruct Hk as [->|(z & [<-|[<-|[<-|[]]]] & ->)]; reflexivity. }
  destruct (zone_features_single st) as [E|[f E]].
  - exists st. rewrite script_run_past_sidebar by (by apply Hside).
    assert (Hrun : (map_click (last_object_clicked (untouched st)) ;;;
              cleanup_control (cleanup_spill_select (untouched st))
                (cleanup_click (untouched st)) ;;;
              assistant_panel client (assistant_spill_select (untouched st))
                (chat_input (untouched st))) st = (Py.Ok tt, st)).
    { rewrite bind_run. cbn [untouched last_object_clicked map_click map_click_on ret].
      rewrite bind_run, cleanup_control_no_zone by done.
      by rewrite assistant_panel_no_zone. }
    rewrite Hrun. repeat split; try done.
  - set (st' := set_selected_spill_id (Some (spill_id (properties f))) st).
    assert (Hrun : forall st0, selected_zone_id st0 = selected_zone_id st ->
              zone_features st0 = [f] ->
              script_run client (untouched st0) st0 =
                (Py.Ok tt, set_selected_spill_id (Some (spill_id (properties f))) st0)).
    { intros st0 Hz0 E0. rewrite script_run_past_sidebar by (by apply Hside).
      rewrite bind_run. cbn [untouched last_object_clicked map_click map_click_on ret].
      cbn [cleanup_spill_select cleanup_click assistant_spill_select chat_input].
      apply untouched_controls; [done | by apply default_spill_label_single]. }
    exists st'. split; [by apply Hrun|]. repeat split; try done.
    + by rewrite E.
    + intros s Hs Hin. unfold zone_spill_ids in Hin. rewrite E in Hin.
      destruct Hin as [<-|[]]. subst st'. rewrite <- Hs. apply set_spill_same.
    + intros _. exists (spill_id (properties f)). split; [|done].
      unfold zone_spill_ids. rewrite E. by left.
    + by rewrite (Hrun st').
Qed.

Lemma untouched_run_is_quiet_witness :
  exists st',
    script_run None (untouched z1_selected) z1_selected = (Py.Ok tt, st') /\
    st' = z1_selected.
Proof.
  assert (Hk : zone_known z1_selected).
  { right. exists {| zone_id := "Z1"; lat := 40.20; lon := 49.80;
                     scene_id := "SCENARIO_001" |}.
    split; [cbn; tauto | reflexivity]. }
  destruct (untouched_run_is_quiet None z1_selected Hk)
    as (st' & Hrun & _ & _ & _ & _ & Hsame & _).
  exists st'. split; [exact Hrun|].
  apply (Hsame "S1"); [reflexivity | vm_compute; tauto].
Defined.

(** *** The info box of the selected zone *)

(** X15: the marker carrying the info box of the selected zone is put a
    tenth of a degree north and east of the zone's own marker, which is
    within the click range of that zone and nearer to it than to any
    other zone: a click reported at the info box resolves to the selected
    zone itself, and so resets the spill selection and the transcript. *)
Theorem info_box_click_reselects_zone (st : State) (a b : float) :
  info_label_position st = Some (a, b) ->
  exists zone,
    In zone DANGER_ZONES /\
    selected_zone_id st = Some (zone_id zone) /\
    (a, b) = (lat zone + 0.10, lon zone + 0.10)%float /\
    resolve_click a b = Some zone /\
    map_click (Some (a, b)) st =
      (Py.Raise Py.RerunException, zone_changed (selected_zone_id st) st).
Proof.
  unfold info_label_position, map_view, zone_features.
  destruct (selected_zone_id st) as [zid|] eqn:Ez; [|done].
  destruct (Py.truthy (Some zid)); [|done].
  change (default "" (Some zid)) with zid.
  destruct (features_cases zid) as [Hz|Hz]; [|by rewrite Hz].
  assert (Hcases : exists zone, In zone DANGER_ZONES /\ zid = zone_id zone /\
            features (get_spill_geojson zid) <> [] /\
            get_zone_meta zid = Some zone /\
            resolve_click (lat zone + 0.10) (lon zone + 0.10) = Some zone).
  { destruct Hz as [-> | [-> | ->]];
      [exists {| zone_id := "Z1"; lat := 40.20; lon := 49.80; scene_id := "SCENARIO_001" |}
      |exists {| zone_id := "Z2"; lat := 40.05; lon := 49.9; scene_id := "SCENARIO_001" |}
      |exists {| zone_id := "Z3"; lat := 39.90; lon := 50.00; scene_id := "SCENARIO_001" |}];
      (split; [cbn; tauto|]); (split; [reflexivity|]);
      (split; [vm_compute; discriminate|]); (split; [reflexivity|]);
      vm_compute; reflexivity. }
  destruct Hcases as (zone & Hin & -> & Hne & Hm & Hr).
  destruct (features (get_spill_geojson (zone_id zone))); [done|].
  rewrite Hm. cbn [fst snd]. intros [= <- <-].
  exists zone. repeat split; try done.
  by rewrite map_click_run, Hr.
Qed.

Lemma info_box_click_reselects_zone_witness :
  exists zone,
    selected_zone_id z1_selected = Some (zone_id zone) /\
    resolve_click (40.20 + 0.10) (49.80 + 0.10) = Some zone.
Proof.
  assert (H : info_label_position z1_selected =
              Some (40.20 + 0.10, 49.80 + 0.10)%float) by (vm_compute; reflexivity).
  destruct (info_box_click_reselects_zone z1_selected _ _ H)
    as (zone & _ & Hz & _ & Hr & _).
  exists zone. exact (conj Hz Hr).
Defined.

(** *** Spill colours *)

Lemma base_colors_cases thickness :
  (thickness = "thick" /\ base_colors !! thickness = Some "red") \/
  (thickness = "medium" /\ base_colors !! thickness = Some "orange") \/
  (thickness = "thin" /\ base_colors !! thickness = Some "yellow") \/
  (thickness <> "thick" /\ thickness <> "medium" /\ thickness <> "thin" /\
   base_colors !! thickness = None).
Proof.
  destruct (decide (thickness = "thick")) as [->|n1]; [by left|].
  destruct (decide (thickness = "medium")) as [->|n2]; [by right; left|].
  destruct (decide (thickness = "thin")) as [->|n3]; [by right; right; left|].
  do 3 right. repeat split; try done. unfold base_colors.
  rewrite !lookup_insert_ne by congruence. apply lookup_empty.
Qed.

(** X16: [get_spill_color] lets the cleanup status override the
    thickness: the colour is green exactly when the status is "done" and
    blue exactly when it is "cleaning", whatever the thickness; for every
    other status it is red, orange or yellow for the three thickness
    classes and gray exactly for any other thickness string. *)
Theorem spill_color_by_status (thickness status : string) :
  (get_spill_color thickness status = "green" <-> status = "done") /\
  (get_spill_color thickness status = "blue" <-> status = "cleaning") /\
  (status <> "done" -> status <> "cleaning" ->
     (thickness = "thick" -> get_spill_color thickness status = "red") /\
     (thickness = "medium" -> get_spill_color thickness status = "orange") /\
     (thickness = "thin" -> get_spill_color thickness status = "yellow") /\
     (get_spill_color thickness status = "gray" <->
        thickness <> "thick" /\ thickness <> "medium" /\ thickness <> "thin")).
Proof.
  unfold get_spill_color.
  destruct (String.eqb_spec status "done") as [->|Hd].
  { split; [done|]. split; [split; discriminate | done]. }
  destruct (String.eqb_spec status "cleaning") as [->|Hc].
  { split; [split; [discriminate | done]|]. split; [done | done]. }
  destruct (base_colors_cases thickness)
    as [[-> ->]|[[-> ->]|[[-> ->]|(n1 & n2 & n3 & ->)]]]; cbn [default];
    (split; [split; [discriminate | done]|]);
    (split; [split; [discriminate | done]|]);
    intros _ _; repeat split; try done; try discriminate; tauto.
Qed.

Lemma spill_color_by_status_witness :
  get_spill_color "thick" "idle" = "red" /\
  get_spill_color "foamy" "idle" = "gray".
Proof.
  assert (H1 : "idle" <> "done") by discriminate.
  assert (H2 : "idle" <> "cleaning") by discriminate.
  split.
  - by apply (proj2 (proj2 (spill_color_by_status "thick" "idle")) H1 H2).
  - apply (proj2 (proj2 (spill_color_by_status "foamy" "idle")) H1 H2).
    repeat split; discriminate.
Defined.

(** *** The spill selectbox on any feature list *)

Lemma index_first l x i :
  Py.index l x = Some i ->
  nth_error l i = Some x /\ forall j, j < i -> nth_error l j <> Some x.
Proof.
  revert i. induction l as [|y l IH]; cbn; [done|]. intros i.
  destruct (String.eqb_spec y x) as [->|Hne].
  - intros [= <-]. split; [done | lia].
  - destruct (Py.index l x) as [k|]; cbn; [|done]. intros [= <-].
    destruct (IH k eq_refl) as [Hk Hfirst]. split; [done|].
    intros [|j] Hj; cbn; [congruence | apply Hfirst; lia].
Qed.

(** X17: the spill selectbox block, for any non-empty list of features
    and any value returned by the widget: when the value is one of the
    labels, the spill stored is the one at the first position carrying
    that label and nothing else in the state changes; when it is not,
    the block raises ValueError, after having replaced a stored spill id
    that is not among the zone's spills by the first spill.  No other
    exception can occur. *)
Theorem spill_selectbox_behaviour (f : Feature) (fs : list Feature)
    (lbl : string) (st : State) :
  let labels := spill_labels_of (f :: fs) in
  let ids := spill_ids_of (f :: fs) in
  (In lbl labels ->
     exists i sid,
       nth_error labels i = Some lbl /\
       (forall j, j < i -> nth_error labels j <> Some lbl) /\
       nth_error ids i = Some sid /\
       spill_selectbox (f :: fs) lbl st =
         (Py.Ok sid, set_selected_spill_id (Some sid) st)) /\
  (~ In lbl labels ->
     spill_selectbox (f :: fs) lbl st =
       (Py.Raise Py.ValueError,
        if Py.contains ids (selected_spill_id st) then st
        else set_selected_spill_id (Some (spill_id (properties f))) st)).
Proof.
  intros labels ids.
  pose proof (spill_selectbox_run f fs lbl st) as H. cbv zeta in H.
  fold labels ids in H. split.
  - intros Hin. destruct (index_of_In _ _ Hin) as [i Hi]. rewrite Hi in H.
    destruct H as (sid & Hn & Hrun). destruct (index_first _ _ _ Hi) as [Hl Hfirst].
    by exists i, sid.
  - intros Hnot. destruct (Py.index labels lbl) as [i|] eqn:Hi.
    + exfalso. apply Hnot. by eapply index_In.
    + rewrite H. unfold coerced.
      destruct (Py.contains ids (selected_spill_id st)); [|done].
      by rewrite set_spill_same.
Qed.

Lemma spill_selectbox_behaviour_witness :
  spill_selectbox (zone_features z1_selected) "S2 | medium | 3.8 km²"
    (zone_changed (Some "Z1") initial_state) =
  (Py.Raise Py.ValueError,
   set_selected_spill_id (Some "S1") (zone_changed (Some "Z1") initial_state)).
Proof.
  destruct (zone_features z1_selected) as [|f fs] eqn:E;
    [vm_compute in E; discriminate|].
  rewrite (proj2 (spill_selectbox_behaviour f fs "S2 | medium | 3.8 km²"
                    (zone_changed (Some "Z1") initial_state))).
  - vm_compute in E. injection E as <- <-. reflexivity.
  - vm_compute in E. injection E as <- <-. vm_compute.
    intros [H|[]]. discriminate.
Defined.

(** *** The most recent event *)

Module StringOrder.

Lemma ascii_compare_refl a : Ascii.compare a a = Eq.
Proof. unfold Ascii.compare. apply N.compare_refl. Qed.

Lemma ascii_lt_trans a b c :
  Ascii.compare a b = Lt -> Ascii.compare b c = Lt -> Ascii.compare a c = Lt.
Proof. unfold Ascii.compare. rewrite !N.compare_lt_iff. lia. Qed.

Lemma compare_refl s : String.compare s s = Eq.
Proof. induction s as [|a s IH]; cbn; [done|]. by rewrite ascii_compare_refl. Qed.

Lemma compare_lt_trans s1 s2 s3 :
  String.compare s1 s2 = Lt -> String.compare s2 s3 = Lt ->
  String.compare s1 s3 = Lt.
Proof.
  revert s2 s3. induction s1 as [|a s1 IH]; intros [|b s2] [|c s3]; cbn;
    try done.
  destruct (Ascii.compare a b) eqn:Eab; try done;
    destruct (Ascii.compare b c) eqn:Ebc; try done.
  - apply Ascii.compare_eq_iff in Eab, Ebc. subst.
    rewrite ascii_compare_refl. apply IH.
  - apply Ascii.compare_eq_iff in Eab. subst. by rewrite Ebc.
  - apply Ascii.compare_eq_iff in Ebc. subst. by rewrite Eab.
  - by rewrite (ascii_lt_trans _ _ _ Eab Ebc).
Qed.

Lemma gt_irrefl a : str_gt a a = false.
Proof. unfold str_gt, String.ltb. by rewrite compare_refl. Qed.

Lemma gt_lt a b : str_gt a b = true <-> String.compare b a = Lt.
Proof. unfold str_gt, String.ltb. destruct (String.compare b a); split; done. Qed.

Lemma gt_trans a b c : str_gt a b = true -> str_gt b c = true -> str_gt a c = true.
Proof. rewrite !gt_lt. intros H1 H2. by eapply compare_lt_trans. Qed.

(** Date strings are totally ordered: what is greater than [c] is
    greater than [b] or [b] is greater than [c]. *)
Lemma gt_cotrans a b c :
  str_gt a c = true -> str_gt a b = true \/ str_gt b c = true.
Proof.
  rewrite !gt_lt. intros Hca.
  destruct (String.compare b a) eqn:Eba; [|by left|].
  - apply String.compare_eq_iff in Eba. subst. by right.
  - right. rewrite String.compare_antisym in Eba.
    destruct (String.compare a b) eqn:Eab; try done.
    by eapply compare_lt_trans.
Qed.

Lemma not_gt_leb a b : str_gt a b = false -> String.leb a b = true.
Proof.
  unfold str_gt, String.ltb, String.leb. intros H.
  rewrite (String.compare_antisym a b).
  by destruct (String.compare b a).
Qed.

End StringOrder.

Lemma latest_event_loop (seen rest : list Event) (best : Event) :
  (exists before after, seen = before ++ best :: after /\
     (forall e, In e before -> str_gt (ev_date best) (ev_date e) = true) /\
     (forall e, In e after -> str_gt (ev_date e) (ev_date best) = false)) ->
  let latest := py_max_by str_gt ev_date best rest in
  exists before after, seen ++ rest = before ++ latest :: after /\
    (forall e, In e before -> str_gt (ev_date latest) (ev_date e) = true) /\
    (forall e, In e after -> str_gt (ev_date e) (ev_date latest) = false).
Proof.
  revert seen best. induction rest as [|x rest IH]; intros seen best H; cbn.
  - by rewrite app_nil_r.
  - unfold py_max_by in *. cbn [fold_left].
    replace (seen ++ x :: rest) with ((seen ++ [x]) ++ rest)
      by (by rewrite <- app_assoc).
    apply IH. destruct H as (before & after & -> & Hb & Ha).
    destruct (str_gt (ev_date x) (ev_date best)) eqn:E.
    + exists (before ++ best :: after), []. split; [done|]. split; [|done].
      intros e He. apply in_app_or in He. destruct He as [He|[<-|He]].
      * eapply StringOrder.gt_trans; [exact E | by apply Hb].
      * done.
      * destruct (StringOrder.gt_cotrans _ (ev_date e) _ E) as [H|H]; [done|].
        rewrite (Ha e He) in H. done.
    + exists before, (after ++ [x]). split; [by rewrite <- app_assoc|].
      split; [done|]. intros e He. apply in_app_or in He.
      destruct He as [He|[<-|[]]]; [by apply Ha | done].
Qed.

(** X18: for every non-empty list of events the summary sentence names
    as most recent the first event of the list among those with the
    greatest date string: every event before it has a smaller date, no
    event after it a greater one. *)
Theorem latest_event_is_first_maximum (first : Event) (rest : list Event) :
  exists latest before after,
    first :: rest = before ++ latest :: after /\
    (forall e, In e before -> String.ltb (ev_date e) (ev_date latest) = true) /\
    (forall e, In e after -> String.leb (ev_date e) (ev_date latest) = true) /\
    history_sentence first rest =
      summary_text (length (first :: rest))
        (py_sum (map ev_area_km2 (first :: rest)))
        (py_max_by float_gt id (ev_area_km2 first) (map ev_area_km2 rest))
        latest.
Proof.
  destruct (latest_event_loop [first] rest first) as (before & after & E & Hb & Ha).
  { exists [], []. done. }
  exists (py_max_by str_gt ev_date first rest), before, after.
  split; [done|]. split; [exact Hb|]. split; [|done].
  intros e He. by apply StringOrder.not_gt_leb, Ha.
Qed.

(** *** Clicks without a position *)

Module NaN.

Lemma is_nan_sf x : is_nan x = true <-> nan_sf x.
Proof.
  unfold nan_sf. split.
  - intros H. destruct (Prim2SF x) eqn:E; try done;
      assert (Hn : number x) by (unfold number; congruence);
      apply FloatOrder.is_nan_number in Hn; congruence.
  - intros H. destruct (is_nan x) eqn:E; [done|].
    apply FloatOrder.is_nan_number in E. done.
Qed.

Lemma sub_r x y : nan_sf y -> nan_sf (x - y).
Proof.
  unfold nan_sf. intros H. rewrite sub_spec, H. unfold SF64sub, SFsub.
  by destruct (Prim2SF x).
Qed.

Lemma add_l x y : nan_sf x -> nan_sf (x + y).
Proof. unfold nan_sf. intros H. by rewrite add_spec, H. Qed.

Lemma add_r x y : nan_sf y -> nan_sf (x + y).
Proof.
  unfold nan_sf. intros H. rewrite add_spec, H. unfold SF64add, SFadd.
  by destruct (Prim2SF x).
Qed.

Lemma ltb_l x y : nan_sf x -> (x <? y)%float = false.
Proof. unfold nan_sf. intros H. by rewrite FloatAxioms.ltb_spec, H. Qed.

End NaN.

(** A NaN is squared to itself and has itself as root, without the
    library. *)
Lemma pow_2_nan pow x : is_nan x = true -> Py.pow_2 pow x = Py.Ok x.
Proof. intros H. unfold Py.pow_2. by rewrite H. Qed.

Lemma pow_half_nan pow x : is_nan x = true -> Py.pow_half pow x = Py.Ok (Py.PyFloat x).
Proof. intros H. unfold Py.pow_half. by rewrite H. Qed.

(** For a click without a position the distance of a zone is a NaN,
    unless the square of the other coordinate overflows. *)
Lemma click_distance_nan pow clat clon zone :
  is_nan clat = true \/ is_nan clon = true ->
  (exists x, is_nan x = true /\
     click_distance pow clat clon zone = Py.Ok (Py.PyFloat x)) \/
  click_distance pow clat clon zone = Py.Raise Py.OverflowError.
Proof.
  unfold click_distance. intros [H|H].
  - assert (Ha : is_nan (lat zone - clat) = true)
      by (by apply NaN.is_nan_sf, NaN.sub_r, NaN.is_nan_sf).
    rewrite (pow_2_nan pow _ Ha).
    destruct (Py.pow_2 pow (lon zone - clon)) as [b|e] eqn:E.
    + left. exists (lat zone - clat + b)%float.
      assert (Hs : is_nan (lat zone - clat + b) = true)
        by (by apply NaN.is_nan_sf, NaN.add_l, NaN.is_nan_sf).
      split; [done | by apply pow_half_nan].
    + right. by rewrite (pow_2_raises pow _ _ E).
  - destruct (Py.pow_2 pow (lat zone - clat)) as [a|e] eqn:E.
    + assert (Hb : is_nan (lon zone - clon) = true)
        by (by apply NaN.is_nan_sf, NaN.sub_r, NaN.is_nan_sf).
      rewrite (pow_2_nan pow _ Hb). left. exists (a + (lon zone - clon))%float.
      assert (Hs : is_nan (a + (lon zone - clon)) = true)
        by (by apply NaN.is_nan_sf, NaN.add_r, NaN.is_nan_sf).
      split; [done | by apply pow_half_nan].
    + right. by rewrite (pow_2_raises pow _ _ E).
Qed.

(** X19: a click whose latitude or longitude is not a number never
    selects a zone, for any list of zones and any library [pow]: every
    distance that is computed is a NaN, so no comparison in the loop
    succeeds, and the loop ends with nothing chosen unless the square of
    the other coordinate overflows, which ends it with OverflowError.  In
    both cases the click handler leaves the state unchanged. *)
Theorem nan_click_selects_nothing (pow : Py.LibmPow) (zones : list Zone)
    (clat clon : float) (st : State) :
  is_nan clat = true \/ is_nan clon = true ->
  (nearest_among pow zones clat clon = Py.Ok (infinity, None) \/
   nearest_among pow zones clat clon = Py.Raise Py.OverflowError) /\
  resolve_click_on pow clat clon = None /\
  (map_click_on pow (Some (clat, clon)) st = (Py.Ok tt, st) \/
   map_click_on pow (Some (clat, clon)) st = (Py.Raise Py.OverflowError, st)).
Proof.
  intros Hnan.
  assert (H : forall zs acc,
            nearest_loop pow clat clon zs acc = Py.Ok acc \/
            nearest_loop pow clat clon zs acc = Py.Raise Py.OverflowError).
  { induction zs as [|zone zs IH]; intros acc; [by left|].
    cbn [nearest_loop]. unfold nearest_step.
    destruct (click_distance_nan pow clat clon zone Hnan) as [(x & Hx & ->)| ->];
      [|by right].
    rewrite NaN.ltb_l by (by apply NaN.is_nan_sf). apply IH. }
  split; [apply H|].
  assert (Hr : resolve_click_on pow clat clon = None).
  { unfold resolve_click_on, nearest_among.
    by destruct (H DANGER_ZONES (infinity, None)) as [-> | ->]. }
  split; [done|]. rewrite map_click_on_run, Hr. unfold nearest_among.
  destruct (H DANGER_ZONES (infinity, None)) as [-> | ->]; [by left | by right].
Qed.

(** A click with no latitude: at longitude 49.8 nothing happens, at
    longitude 1e200 the handler raises OverflowError; the selection of Z1
    and S1 stays. *)
Lemma nan_click_selects_nothing_witness :
  map_click_on exact_pow (Some (nan, 49.80)%float) z1_selected =
    (Py.Ok tt, z1_selected) /\
  map_click_on exact_pow (Some (nan, 1e200)%float) z1_selected =
    (Py.Raise Py.OverflowError, z1_selected).
Proof.
  assert (Hnan : is_nan nan = true) by reflexivity.
  split.
  - destruct (proj2 (proj2 (nan_click_selects_nothing exact_pow DANGER_ZONES nan 49.80
                              z1_selected (or_introl Hnan)))) as [H|H]; [exact H|].
    exfalso. revert H. vm_compute. discriminate.
  - destruct (proj2 (proj2 (nan_click_selects_nothing exact_pow DANGER_ZONES nan 1e200
                              z1_selected (or_introl Hnan)))) as [H|H]; [|exact H].
    exfalso. revert H. vm_compute. discriminate.
Defined.

(** *** Runs on any C library *)

(** X20: what a run does to the session state does not depend on how the
    C library rounds: whatever [pow] returns, a run keeps the selection
    invariant, leaves every cleanup status in place or moves it one step
    forward, leaves the transcript as it was, empties it or appends one
    question/answer pair, and changes the selected zone only together
    with the reset of spill and transcript, ending by a rerun. *)
Theorem run_properties_for_any_pow (pow : Py.LibmPow) (client : Client)
    (w : Widgets) (st : State) :
  let outcome := fst (script_run_on pow client w st) in
  let st' := snd (script_run_on pow client w st) in
  (valid_selection st -> valid_selection st') /\
  (forall sid, advances (status_of st sid) (status_of st' sid)) /\
  (chat_messages st' = chat_messages st \/ chat_messages st' = [] \/
   exists q answer, chat_input w = Some q /\ q <> "" /\
     chat_messages st' =
       chat_messages st ++ [user_message q; assistant_message answer]) /\
  (selected_zone_id st' <> selected_zone_id st ->
     selected_spill_id st' = None /\ chat_messages st' = [] /\
     cleanup_status st' = cleanup_status st /\
     outcome = Py.Raise Py.RerunException).
Proof.
  cbv zeta. pose proof (script_run_on_cases pow client w st) as H.
  generalize dependent (snd (script_run_on pow client w st)).
  generalize dependent (fst (script_run_on pow client w st)).
  intros outcome st' H.
  destruct H as [| | | | |s v Hs Hl Hb Hv| | |];
    (split; [intros Hvalid;
             first [ apply valid_zone_changed | exact Hvalid
                   | eapply valid_of_selected; [eassumption | reflexivity..] ]|]);
    (split; [|split; [cbn; eauto 8 | cbn; done]]);
    intros sid; try apply advances_refl.
  rewrite status_of_set. destruct (decide (s = sid)) as [<-|]; [|apply advances_refl].
  change (status_of (set_selected_spill_id (Some s) st) s) with (status_of st s).
  unfold advances. destruct Hv as [[-> ->]|[-> ->]]; tauto.
Qed.

(** The transcript holds a pair and S1 is selected; a click at the info
    box of Z2 changes the zone, and with it resets spill and transcript. *)
Lemma run_properties_for_any_pow_witness :
  let st' := snd (script_run_on exact_pow None
                    (click_at "Z1" (40.05 + 0.10) (49.9 + 0.10)) z1_asked) in
  selected_zone_id st' = Some "Z2" /\
  selected_spill_id st' = None /\ chat_messages st' = [].
Proof.
  intros st'.
  assert (Hz : selected_zone_id st' = Some "Z2") by (vm_compute; reflexivity).
  assert (Hne : selected_zone_id st' <> selected_zone_id z1_asked)
    by (rewrite Hz; discriminate).
  destruct (proj2 (proj2 (proj2 (run_properties_for_any_pow exact_pow None
              (click_at "Z1" (40.05 + 0.10) (49.9 + 0.10)) z1_asked))) Hne)
    as (Hs & Hc & _).
  exact (conj Hz (conj Hs Hc)).
Defined.
